(** * cybersecurity_data_updater: retry, normalisation and STRIDE correlation

    A shallow embedding of [CybersecurityDataUpdater]
    (src/cybersecurity_data_updater.py): the retrying download, the three
    STIX normalisers, the STRIDE correlation and the consolidated document.

    Modelling conventions.
    - A decoded JSON document is a [value]; Python's [None] is [VNone] (it is
      also what JSON null decodes to).  JSON numbers are integers here: the
      code never computes with a number of a document.
    - Text is a [string] of 8-bit characters; [str.lower] is modelled on the
      ASCII letters and leaves every other character alone.
    - A Python dict read from JSON is an association list with string keys,
      looked up by key; the pattern index [capec_by_id] is a [gmap].
    - Code that may raise returns a [result]; code that talks to the network,
      sleeps, logs or writes a file also returns the list of its [event]s.
      The network, the file system and the clock are a [World] that answers
      each request.
    - The creation of the output directory, the HTML report and the entry
      point are not part of the development. *)

From Stdlib Require Import ZArith Ascii String List Bool Lia.
From stdpp Require Import gmap strings pretty list fin_maps.

Set Warnings "-register-all,-clear-no-such-hyp".
Local Open Scope Z_scope.

(** ** Python values and exceptions *)

Inductive value : Type :=
| VNone
| VBool (b : bool)
| VInt (z : Z)
| VStr (s : string)
| VList (l : list value)
| VDict (d : list (string * value)).

Inductive exn : Type :=
| IndexError
| KeyError (k : string)
| TypeError
| AttributeError
| RequestException (msg : string)
| OSError (path : string).

Inductive result (A : Type) : Type :=
| Ok (a : A)
| Raise (e : exn).
Arguments Ok {A} a.
Arguments Raise {A} e.

Definition rbind {A B} (r : result A) (k : A -> result B) : result B :=
  match r with
  | Ok a => k a
  | Raise e => Raise e
  end.

Notation "x <- c ;; k" := (rbind c (fun x => k))
  (at level 100, c at next level, right associativity).

(** [[f(x) for x in xs]], stopping at the first exception. *)
Fixpoint mapM {A B} (f : A -> result B) (xs : list A) : result (list B) :=
  match xs with
  | [] => Ok []
  | x :: xs' => y <- f x ;; ys <- mapM f xs' ;; Ok (y :: ys)
  end.

Module Py.

(** Association-list lookup: the value stored under key [k]. *)
Fixpoint assoc {A} (k : string) (d : list (string * A)) : option A :=
  match d with
  | [] => None
  | (k', v) :: d' => if String.eqb k k' then Some v else assoc k d'
  end.

(** [d[k] = v]: an existing key keeps its place, a new one goes last. *)
Fixpoint setitem {A} (k : string) (v : A) (d : list (string * A)) : list (string * A) :=
  match d with
  | [] => [(k, v)]
  | (k', v') :: d' => if String.eqb k k' then (k, v) :: d' else (k', v') :: setitem k v d'
  end.

(** [bool(v)]. *)
Definition truthy (v : value) : bool :=
  match v with
  | VNone => false
  | VBool b => b
  | VInt z => negb (z =? 0)
  | VStr s => negb (String.eqb s "")
  | VList l => match l with [] => false | _ => true end
  | VDict d => match d with [] => false | _ => true end
  end.

(** [v == s] for a string literal [s]. *)
Definition eq_str (v : value) (s : string) : bool :=
  match v with
  | VStr s' => String.eqb s' s
  | _ => false
  end.

(** [needle in hay] on strings: [needle] occurs as a contiguous run. *)
Fixpoint str_contains (needle hay : string) : bool :=
  String.prefix needle hay ||
  match hay with
  | EmptyString => false
  | String _ hay' => str_contains needle hay'
  end.

(** [s in v] for a string literal [s]: a key of a dict, an element of a
    list, a substring of a string; other values do not support [in]. *)
Definition contains (s : string) (v : value) : result bool :=
  match v with
  | VDict d => Ok (match assoc s d with Some _ => true | None => false end)
  | VList l => Ok (existsb (fun x => eq_str x s) l)
  | VStr t => Ok (str_contains s t)
  | _ => Raise TypeError
  end.

(** [v[k]] for a string literal [k]. *)
Definition getitem (v : value) (k : string) : result value :=
  match v with
  | VDict d => match assoc k d with Some x => Ok x | None => Raise (KeyError k) end
  | _ => Raise TypeError
  end.

(** [v[0]]. A dict decoded from JSON has string keys only, so [d[0]] is a
    [KeyError] (of the integer 0, written "0" here). *)
Definition getitem0 (v : value) : result value :=
  match v with
  | VList (x :: _) => Ok x
  | VList [] => Raise IndexError
  | VStr (String c _) => Ok (VStr (String c EmptyString))
  | VStr EmptyString => Raise IndexError
  | VDict _ => Raise (KeyError "0")
  | _ => Raise TypeError
  end.

(** [v.get(k, default)]: only a dict has [get]. *)
Definition get (v : value) (k : string) (default : value) : result value :=
  match v with
  | VDict d => Ok (match assoc k d with Some x => x | None => default end)
  | _ => Raise AttributeError
  end.

Fixpoint chars (s : string) : list value :=
  match s with
  | EmptyString => []
  | String c s' => VStr (String c EmptyString) :: chars s'
  end.

(** The elements [for x in v] visits: the items of a list, the keys of a
    dict, the characters of a string. *)
Definition iter (v : value) : result (list value) :=
  match v with
  | VList l => Ok l
  | VDict d => Ok (map (fun kv => VStr (fst kv)) d)
  | VStr s => Ok (chars s)
  | _ => Raise TypeError
  end.

Definition lower_char (c : ascii) : ascii :=
  let n := nat_of_ascii c in
  if (65 <=? n)%nat && (n <=? 90)%nat then ascii_of_nat (n + 32) else c.

(** [s.lower()]. *)
Fixpoint lower (s : string) : string :=
  match s with
  | EmptyString => EmptyString
  | String c s' => String (lower_char c) (lower s')
  end.

(** [a + b] where [b] is a string: defined on strings only. *)
Definition add_str (a : value) (b : string) : result string :=
  match a with
  | VStr s => Ok (s +:+ b)
  | _ => Raise TypeError
  end.

End Py.

(** ** The world outside the program *)

(** One HTTP attempt, as [download_with_retry] sees it: [requests.get],
    [raise_for_status] and [response.json] either yield the decoded document
    or raise a [requests.exceptions.RequestException] (connection error,
    timeout, error status, undecodable body). *)
Inductive response : Type :=
| Parsed (doc : value)
| Failed (msg : string).

(** [net url i] answers the attempt of index [i] (from 0) at [url];
    [writable path] tells whether [open(path, 'w')] succeeds (when it does
    not, nothing is created); [dump_error path] is the exception, if any,
    that [json.dump] raises into the open file (a full disk, a string
    that cannot be encoded), which leaves the file created and partly
    written; [now] is [datetime.now().isoformat()]. *)
Record World : Type := {
  net : string -> nat -> response;
  writable : string -> bool;
  dump_error : string -> option exn;
  now : string
}.

Inductive level : Type := INFO | WARNING | ERROR.

Inductive event : Type :=
| Log (lv : level) (text : string)
| LogExn (lv : level) (text : string) (e : exn)
| Get (url : string)
| Sleep (seconds : Z)
| Write (path : string)
| Partial (path : string).

(** A computation with effects: what it returns or raises, and what it did. *)
Definition eff (A : Type) : Type := (result A * list event)%type.

Definition is_action (ev : event) : bool :=
  match ev with
  | Get _ | Sleep _ => true
  | _ => false
  end.

(** The requests and sleeps of a trace, without the log lines. *)
Definition actions (tr : list event) : list event := List.filter is_action tr.

(** ** Resilient fetcher *)

Section Fetcher.
Variable w : World.

(** What an attempt does before its outcome is known: the log line and the
    request. *)
Definition attempt_start (url : string) (attempt : nat) : list event :=
  [Log INFO ("Downloading: " +:+ url +:+ " (attempt " +:+ pretty (Z.of_nat attempt + 1) +:+ ")");
   Get url].

Definition attempt_warning (attempt : nat) (e : exn) : event :=
  LogExn WARNING ("Attempt " +:+ pretty (Z.of_nat attempt + 1) +:+ " failed: ") e.

(** The body of [for attempt in range(max_retries)], from index [attempt]
    with [fuel] indices left. Falling off the end of the loop returns
    [None]. *)
Fixpoint retry_loop (url : string) (max_retries : Z) (fuel attempt : nat) : eff value :=
  match fuel with
  | O => (Ok VNone, [])
  | S fuel' =>
      match net w url attempt with
      | Parsed doc => (Ok doc, attempt_start url attempt)
      | Failed msg =>
          let e := RequestException msg in
          if Z.of_nat attempt <? max_retries - 1 then
            let '(r, tr) := retry_loop url max_retries fuel' (S attempt) in
            (r, attempt_start url attempt
                  ++ [attempt_warning attempt e; Sleep (2 ^ Z.of_nat attempt)] ++ tr)
          else
            (Raise e, attempt_start url attempt
                        ++ [attempt_warning attempt e;
                            Log ERROR ("Permanent failure for " +:+ url)])
      end
  end.

Definition download_with_retry (url : string) (max_retries : Z) : eff value :=
  retry_loop url max_retries (Z.to_nat max_retries) 0.

End Fetcher.

(** ** Catalog normaliser *)

(** The dict literals the normalisers build have fixed keys: they are records
    here. A field holds whatever [obj.get] returned, so it is a [value]. *)

Module Technique.
Record t : Type := {
  id : value;
  name : value;
  description : value;
  domain : string;
  tactics : list value;
  stix_id : value;
  created : value;
  modified : value;
  external_references : value
}.
End Technique.

Module Mitigation.
Record t : Type := {
  id : value;
  name : value;
  description : value;
  domain : string;
  stix_id : value;
  created : value;
  modified : value;
  external_references : value
}.
End Mitigation.

Module Pattern.
Record t : Type := {
  id : value;
  name : value;
  description : value;
  stix_id : value;
  created : value;
  modified : value;
  external_references : value
}.
End Pattern.

(** A loop that appends the records of each [x] to one list; an exception
    leaves the loop and the list is lost. *)
Fixpoint collect {A B} (f : A -> result (list B)) (xs : list A) : result (list B) :=
  match xs with
  | [] => Ok []
  | x :: xs' => ys <- f x ;; zs <- collect f xs' ;; Ok (ys ++ zs)
  end.

(** [obj.get('external_references', [{}])[0].get('external_id', '')] *)
Definition first_external_id (obj : value) : result value :=
  refs <- Py.get obj "external_references" (VList [VDict []]) ;;
  ref <- Py.getitem0 refs ;;
  Py.get ref "external_id" (VStr "").

(** [[phase['phase_name'] for phase in obj.get('kill_chain_phases', [])]] *)
Definition phase_names (obj : value) : result (list value) :=
  phases <- Py.get obj "kill_chain_phases" (VList []) ;;
  items <- Py.iter phases ;;
  mapM (fun phase => Py.getitem phase "phase_name") items.

(** The dict literal of [parse_attack_techniques], its entries evaluated in
    the order they are written. *)
Definition technique_of (domain : string) (obj : value) : result Technique.t :=
  id <- first_external_id obj ;;
  name <- Py.get obj "name" (VStr "") ;;
  description <- Py.get obj "description" (VStr "") ;;
  tactics <- phase_names obj ;;
  stix_id <- Py.get obj "id" (VStr "") ;;
  created <- Py.get obj "created" (VStr "") ;;
  modified <- Py.get obj "modified" (VStr "") ;;
  external_references <- Py.get obj "external_references" (VList []) ;;
  Ok {| Technique.id := id; Technique.name := name;
        Technique.description := description; Technique.domain := domain;
        Technique.tactics := tactics; Technique.stix_id := stix_id;
        Technique.created := created; Technique.modified := modified;
        Technique.external_references := external_references |}.

(** [if 'objects' in data: for obj in data['objects']: if obj.get('type') == ty: ...] *)
Definition records_of_type {A} (ty : string) (f : value -> result A) (data : value)
  : result (list A) :=
  has <- Py.contains "objects" data ;;
  if has then
    objects <- Py.getitem data "objects" ;;
    items <- Py.iter objects ;;
    collect (fun obj =>
               kind <- Py.get obj "type" VNone ;;
               if Py.eq_str kind ty then r <- f obj ;; Ok [r] else Ok []) items
  else Ok [].

Definition parse_attack_techniques (attack_data : list (string * value))
  : result (list Technique.t) :=
  collect (fun '(domain, data) => records_of_type "attack-pattern" (technique_of domain) data)
          attack_data.

Definition mitigation_of (domain : string) (obj : value) : result Mitigation.t :=
  id <- first_external_id obj ;;
  name <- Py.get obj "name" (VStr "") ;;
  description <- Py.get obj "description" (VStr "") ;;
  stix_id <- Py.get obj "id" (VStr "") ;;
  created <- Py.get obj "created" (VStr "") ;;
  modified <- Py.get obj "modified" (VStr "") ;;
  external_references <- Py.get obj "external_references" (VList []) ;;
  Ok {| Mitigation.id := id; Mitigation.name := name;
        Mitigation.description := description; Mitigation.domain := domain;
        Mitigation.stix_id := stix_id; Mitigation.created := created;
        Mitigation.modified := modified;
        Mitigation.external_references := external_references |}.

Definition parse_attack_mitigations (attack_data : list (string * value))
  : result (list Mitigation.t) :=
  collect (fun '(domain, data) => records_of_type "course-of-action" (mitigation_of domain) data)
          attack_data.

(** [for ref in ...: if ref.get('source_name') == 'capec': capec_id = ...; break],
    with [capec_id = ''] before the loop. *)
Fixpoint find_capec_id (refs : list value) : result value :=
  match refs with
  | [] => Ok (VStr "")
  | ref :: refs' =>
      source_name <- Py.get ref "source_name" VNone ;;
      if Py.eq_str source_name "capec"
      then Py.get ref "external_id" (VStr "")
      else find_capec_id refs'
  end.

Definition pattern_of (obj : value) : result Pattern.t :=
  refs <- Py.get obj "external_references" (VList []) ;;
  items <- Py.iter refs ;;
  capec_id <- find_capec_id items ;;
  name <- Py.get obj "name" (VStr "") ;;
  description <- Py.get obj "description" (VStr "") ;;
  stix_id <- Py.get obj "id" (VStr "") ;;
  created <- Py.get obj "created" (VStr "") ;;
  modified <- Py.get obj "modified" (VStr "") ;;
  external_references <- Py.get obj "external_references" (VList []) ;;
  Ok {| Pattern.id := capec_id; Pattern.name := name;
        Pattern.description := description; Pattern.stix_id := stix_id;
        Pattern.created := created; Pattern.modified := modified;
        Pattern.external_references := external_references |}.

Definition parse_capec_patterns (capec_data : value) : result (list Pattern.t) :=
  records_of_type "attack-pattern" pattern_of capec_data.

(** ** The updater object and its static tables *)

Module MappingInfo.
Record t : Type := {
  description : string;
  capec_ids : list string
}.
End MappingInfo.

(** [self]: the attributes [__init__] sets. *)
Module Updater.
Record t : Type := {
  output_dir : string;
  sources : list (string * string);
  stride_capec_mappings : list (string * MappingInfo.t);
  stride_categories : list (string * string)
}.
End Updater.

Definition default_sources : list (string * string) :=
  [ ("attack_enterprise",
     "https://raw.githubusercontent.com/mitre-attack/attack-stix-data/master/enterprise-attack/enterprise-attack.json");
    ("attack_mobile",
     "https://raw.githubusercontent.com/mitre-attack/attack-stix-data/master/mobile-attack/mobile-attack.json");
    ("attack_ics",
     "https://raw.githubusercontent.com/mitre-attack/attack-stix-data/master/ics-attack/ics-attack.json");
    ("capec_stix",
     "https://raw.githubusercontent.com/mitre/cti/master/capec/2.1/stix-capec.json");
    ("d3fend_base",
     "https://d3fend.mitre.org/api/ontology/inference/d3fend-full-mappings.json") ].

Definition spoofing_capec_ids : list string :=
  [
    "CAPEC-148"; "CAPEC-145"; "CAPEC-218"; "CAPEC-502"; "CAPEC-627"; "CAPEC-628";
    "CAPEC-151"; "CAPEC-194"; "CAPEC-275"; "CAPEC-543"; "CAPEC-544"; "CAPEC-598";
    "CAPEC-633"; "CAPEC-195"; "CAPEC-587"; "CAPEC-599"; "CAPEC-473"; "CAPEC-459";
    "CAPEC-474"; "CAPEC-475"; "CAPEC-476"; "CAPEC-477"; "CAPEC-479"; "CAPEC-485";
    "CAPEC-89"; "CAPEC-98"; "CAPEC-163"; "CAPEC-164"; "CAPEC-656"; "CAPEC-154";
    "CAPEC-159"; "CAPEC-132"; "CAPEC-38"; "CAPEC-471"; "CAPEC-641"; "CAPEC-141";
    "CAPEC-51"; "CAPEC-142"; "CAPEC-616"; "CAPEC-505"; "CAPEC-611"; "CAPEC-615";
    "CAPEC-617"; "CAPEC-630"; "CAPEC-631"; "CAPEC-632"; "CAPEC-667"; "CAPEC-173";
    "CAPEC-103"; "CAPEC-181"; "CAPEC-222"; "CAPEC-501"; "CAPEC-504"; "CAPEC-654";
    "CAPEC-506"; "CAPEC-416"; "CAPEC-407"; "CAPEC-383"; "CAPEC-412"; "CAPEC-413";
    "CAPEC-414"; "CAPEC-415"; "CAPEC-417"; "CAPEC-418"; "CAPEC-420"; "CAPEC-421";
    "CAPEC-422"; "CAPEC-423"; "CAPEC-424"; "CAPEC-425"; "CAPEC-426"; "CAPEC-427";
    "CAPEC-428"; "CAPEC-429"; "CAPEC-433"; "CAPEC-434"; "CAPEC-435"; "CAPEC-389"
  ].

Definition tampering_capec_ids : list string :=
  [
    "CAPEC-271"; "CAPEC-267"; "CAPEC-39"; "CAPEC-75"; "CAPEC-123"; "CAPEC-153";
    "CAPEC-272"; "CAPEC-273"; "CAPEC-74"; "CAPEC-221"; "CAPEC-459"; "CAPEC-132";
    "CAPEC-29"; "CAPEC-653"; "CAPEC-635"; "CAPEC-649"; "CAPEC-471"; "CAPEC-204";
    "CAPEC-17"; "CAPEC-649"; "CAPEC-242"; "CAPEC-23"; "CAPEC-250"; "CAPEC-77";
    "CAPEC-245"; "CAPEC-83"; "CAPEC-85"; "CAPEC-89"; "CAPEC-86"; "CAPEC-113";
    "CAPEC-152"; "CAPEC-263"; "CAPEC-81"; "CAPEC-78"; "CAPEC-146"; "CAPEC-248";
    "CAPEC-13"; "CAPEC-522"; "CAPEC-439"; "CAPEC-440"; "CAPEC-441"; "CAPEC-636";
    "CAPEC-637"; "CAPEC-638"; "CAPEC-562"
  ].

Definition repudiation_capec_ids : list string :=
  [
    "CAPEC-268"; "CAPEC-93"; "CAPEC-93"; "CAPEC-268"; "CAPEC-578"; "CAPEC-205";
    "CAPEC-550"; "CAPEC-97"; "CAPEC-649"; "CAPEC-26"
  ].

Definition information_disclosure_capec_ids : list string :=
  [
    "CAPEC-117"; "CAPEC-157"; "CAPEC-158"; "CAPEC-609"; "CAPEC-610"; "CAPEC-612";
    "CAPEC-613"; "CAPEC-614"; "CAPEC-651"; "CAPEC-651"; "CAPEC-124"; "CAPEC-134";
    "CAPEC-233"; "CAPEC-116"; "CAPEC-37"; "CAPEC-203"; "CAPEC-189"; "CAPEC-188";
    "CAPEC-651"; "CAPEC-189"; "CAPEC-208"; "CAPEC-224"; "CAPEC-95"; "CAPEC-116";
    "CAPEC-37"; "CAPEC-118"; "CAPEC-224"; "CAPEC-116"; "CAPEC-95"; "CAPEC-509";
    "CAPEC-560"; "CAPEC-560"; "CAPEC-509"
  ].

Definition denial_of_service_capec_ids : list string :=
  [
    "CAPEC-119"; "CAPEC-125"; "CAPEC-130"; "CAPEC-131"; "CAPEC-147"; "CAPEC-229";
    "CAPEC-230"; "CAPEC-231"; "CAPEC-482"; "CAPEC-486"; "CAPEC-487"; "CAPEC-488";
    "CAPEC-489"; "CAPEC-490"; "CAPEC-491"; "CAPEC-492"; "CAPEC-493"; "CAPEC-494";
    "CAPEC-495"; "CAPEC-496"; "CAPEC-497"; "CAPEC-498"; "CAPEC-499"; "CAPEC-21";
    "CAPEC-482"; "CAPEC-486"; "CAPEC-487"; "CAPEC-488"; "CAPEC-489"; "CAPEC-490";
    "CAPEC-491"; "CAPEC-492"; "CAPEC-493"; "CAPEC-494"; "CAPEC-495"; "CAPEC-496";
    "CAPEC-497"; "CAPEC-498"; "CAPEC-499"; "CAPEC-147"; "CAPEC-229"; "CAPEC-230";
    "CAPEC-231"; "CAPEC-599"; "CAPEC-600"; "CAPEC-601"; "CAPEC-602"; "CAPEC-603";
    "CAPEC-604"; "CAPEC-605"; "CAPEC-606"; "CAPEC-607"; "CAPEC-608"
  ].

Definition elevation_of_privilege_capec_ids : list string :=
  [
    "CAPEC-122"; "CAPEC-58"; "CAPEC-180"; "CAPEC-21"; "CAPEC-122"; "CAPEC-207";
    "CAPEC-122"; "CAPEC-207"; "CAPEC-36"; "CAPEC-36"; "CAPEC-560"; "CAPEC-16";
    "CAPEC-554"; "CAPEC-593"; "CAPEC-233"; "CAPEC-69"; "CAPEC-40"; "CAPEC-104";
    "CAPEC-233"; "CAPEC-69"; "CAPEC-40"; "CAPEC-104"; "CAPEC-21"; "CAPEC-21";
    "CAPEC-102"; "CAPEC-102"
  ].

Definition default_stride_capec_mappings : list (string * MappingInfo.t) :=
  [ ("Spoofing", {| MappingInfo.description := "Identity falsification attacks";
        MappingInfo.capec_ids := spoofing_capec_ids |});
    ("Tampering", {| MappingInfo.description := "Data or system integrity violations";
        MappingInfo.capec_ids := tampering_capec_ids |});
    ("Repudiation", {| MappingInfo.description := "Denial of actions or hiding evidence";
        MappingInfo.capec_ids := repudiation_capec_ids |});
    ("Information Disclosure", {| MappingInfo.description := "Unauthorized information access or leakage";
        MappingInfo.capec_ids := information_disclosure_capec_ids |});
    ("Denial of Service", {| MappingInfo.description := "Service availability attacks";
        MappingInfo.capec_ids := denial_of_service_capec_ids |});
    ("Elevation of Privilege", {| MappingInfo.description := "Unauthorized access escalation";
        MappingInfo.capec_ids := elevation_of_privilege_capec_ids |}) ].

Definition default_stride_categories : list (string * string) :=
  [ ("S", "Spoofing"); ("T", "Tampering"); ("R", "Repudiation"); ("I", "Information Disclosure"); ("D", "Denial of Service"); ("E", "Elevation of Privilege") ].

Definition stride_keywords : list (string * list string) :=
  [ ("Spoofing",
     ["spoof"; "fake"; "impersonat"; "masquerad"; "phish"; "identity"; "forge"]);
    ("Tampering",
     ["tamper"; "modify"; "alter"; "corrupt"; "manipulat"; "inject"; "poison"]);
    ("Repudiation",
     ["log"; "audit"; "trace"; "evidence"; "timestamp"; "non-repudiation"; "cover"]);
    ("Information Disclosure",
     ["disclosure"; "leak"; "exfiltrat"; "credential"; "sensitive"; "data"; "harvest"]);
    ("Denial of Service",
     ["denial"; "flood"; "exhaust"; "resource"; "availability"; "crash"; "overwhelm"]);
    ("Elevation of Privilege",
     ["privilege"; "escalat"; "admin"; "root"; "elevat"; "bypass"; "unauthorized"]) ].

(** [CybersecurityDataUpdater(output_dir)]. *)
Definition init (output_dir : string) : Updater.t :=
  {| Updater.output_dir := output_dir;
     Updater.sources := default_sources;
     Updater.stride_capec_mappings := default_stride_capec_mappings;
     Updater.stride_categories := default_stride_categories |}.

(** ** Correlation engine *)

Module PatternSummary.
Record t : Type := {
  id : value;
  name : value;
  description : value
}.
End PatternSummary.

Module TechniqueSummary.
Record t : Type := {
  id : value;
  name : value;
  domain : string;
  tactics : list value
}.
End TechniqueSummary.

Module CategoryMapping.
Record t : Type := {
  description : string;
  capec_patterns : list PatternSummary.t;
  capec_count : nat;
  attack_techniques : list TechniqueSummary.t;
  mapping_source : string
}.
End CategoryMapping.

(** One step of [{pattern['id']: pattern for pattern in patterns if pattern['id']}].
    A list or a dict is not hashable. A truthy number or boolean is a key that
    no string equals: the index as the string identifiers below see it is
    unchanged. *)
Definition index_pattern (capec_by_id : gmap string Pattern.t) (pattern : Pattern.t)
  : result (gmap string Pattern.t) :=
  if Py.truthy (Pattern.id pattern) then
    match Pattern.id pattern with
    | VStr s => Ok (<[s := pattern]> capec_by_id)
    | VList _ | VDict _ => Raise TypeError
    | _ => Ok capec_by_id
    end
  else Ok capec_by_id.

Fixpoint index_patterns (capec_by_id : gmap string Pattern.t) (patterns : list Pattern.t)
  : result (gmap string Pattern.t) :=
  match patterns with
  | [] => Ok capec_by_id
  | pattern :: patterns' =>
      capec_by_id' <- index_pattern capec_by_id pattern ;;
      index_patterns capec_by_id' patterns'
  end.

(** [d[:200] + '...' if len(d) > 200 else d] *)
Definition summary_description (d : value) : result value :=
  match d with
  | VStr s =>
      Ok (if (200 <? String.length s)%nat then VStr (substring 0 200 s +:+ "...") else d)
  | VList l => if (200 <? length l)%nat then Raise TypeError else Ok d
  | VDict l => if (200 <? length l)%nat then Raise TypeError else Ok d
  | _ => Raise TypeError
  end.

Definition pattern_summary (pattern : Pattern.t) : result PatternSummary.t :=
  description <- summary_description (Pattern.description pattern) ;;
  Ok {| PatternSummary.id := Pattern.id pattern;
        PatternSummary.name := Pattern.name pattern;
        PatternSummary.description := description |}.

(** [for capec_id in mapping_info['capec_ids']: ...], threading the list
    [capec_patterns] and the set [found_capec_ids]. The set is added to and
    never read. *)
Fixpoint map_capec_patterns (capec_by_id : gmap string Pattern.t) (capec_ids : list string)
    (capec_patterns : list PatternSummary.t) (found_capec_ids : gset string)
  : result (list PatternSummary.t * gset string) :=
  match capec_ids with
  | [] => Ok (capec_patterns, found_capec_ids)
  | capec_id :: capec_ids' =>
      match capec_by_id !! capec_id with
      | Some pattern =>
          summary <- pattern_summary pattern ;;
          map_capec_patterns capec_by_id capec_ids'
            (capec_patterns ++ [summary]) ({[capec_id]} ∪ found_capec_ids)
      | None => map_capec_patterns capec_by_id capec_ids' capec_patterns found_capec_ids
      end
  end.

(** [(tech.get('description', '') + ' ' + tech.get('name', '')).lower()] *)
Definition desc_lower (tech : Technique.t) : result string :=
  left <- Py.add_str (Technique.description tech) " " ;;
  match Technique.name tech with
  | VStr name => Ok (Py.lower (left +:+ name))
  | _ => Raise TypeError
  end.

Definition technique_summary (tech : Technique.t) : TechniqueSummary.t :=
  {| TechniqueSummary.id := Technique.id tech;
     TechniqueSummary.name := Technique.name tech;
     TechniqueSummary.domain := Technique.domain tech;
     TechniqueSummary.tactics := Technique.tactics tech |}.

(** [any(keyword in text for keyword in keywords)] *)
Definition any_keyword (keywords : list string) (text : string) : bool :=
  existsb (fun keyword => Py.str_contains keyword text) keywords.

(** [for tech in techniques: ...], appending to [attack_techniques]. *)
Fixpoint map_attack_techniques (keywords : list string) (techniques : list Technique.t)
    (attack_techniques : list TechniqueSummary.t) : result (list TechniqueSummary.t) :=
  match techniques with
  | [] => Ok attack_techniques
  | tech :: techniques' =>
      text <- desc_lower tech ;;
      map_attack_techniques keywords techniques'
        (if any_keyword keywords text
         then attack_techniques ++ [technique_summary tech]
         else attack_techniques)
  end.

(** [stride_keywords.get(category, [])] *)
Definition keywords_of (category : string) : list string :=
  match Py.assoc category stride_keywords with
  | Some keywords => keywords
  | None => []
  end.

(** The body of the loop over [self.stride_capec_mappings.items()]. *)
Definition map_category (capec_by_id : gmap string Pattern.t) (techniques : list Technique.t)
    (category : string) (mapping_info : MappingInfo.t) : result CategoryMapping.t :=
  mapped <- map_capec_patterns capec_by_id (MappingInfo.capec_ids mapping_info) [] ∅ ;;
  let capec_patterns := fst mapped in
  attack_techniques <- map_attack_techniques (keywords_of category) techniques [] ;;
  Ok {| CategoryMapping.description := MappingInfo.description mapping_info;
        CategoryMapping.capec_patterns := capec_patterns;
        CategoryMapping.capec_count := length capec_patterns;
        CategoryMapping.attack_techniques := attack_techniques;
        CategoryMapping.mapping_source := "Official community mapping (ostering.com)" |}.

(** What [create_stride_mapping_with_real_data] returns: one entry per
    category, in the order of the table. *)
Definition stride_mapping_of (self : Updater.t) (techniques : list Technique.t)
    (patterns : list Pattern.t) : result (list (string * CategoryMapping.t)) :=
  capec_by_id <- index_patterns ∅ patterns ;;
  mapM (fun item =>
          m <- map_category capec_by_id techniques (fst item) (snd item) ;;
          Ok (fst item, m))
       (Updater.stride_capec_mappings self).

Definition create_stride_mapping_with_real_data (self : Updater.t)
    (techniques : list Technique.t) (patterns : list Pattern.t)
  : eff (list (string * CategoryMapping.t)) :=
  (stride_mapping_of self techniques patterns,
   [Log INFO "Creating STRIDE mapping with official data..."]).

(** ** Fetching the sources *)

Section Fetch.
Variable self : Updater.t.
Variable w : World.

(** [with open(filename, 'w') as f: json.dump(...)], then the log line.
    [Write] is a file written in full; [Partial] is a file that was created
    or truncated and whose dump raised. *)
Definition save (filename : string) (saved : string) : eff unit :=
  if writable w filename then
    match dump_error w filename with
    | None => (Ok tt, [Write filename; Log INFO (saved +:+ filename)])
    | Some e => (Raise e, [Partial filename])
    end
  else (Raise (OSError filename), []).

(** The loop of [fetch_attack_data] over [self.sources.items()]: each
    domain has its own [try]; a document is stored before it is saved. *)
Fixpoint fetch_attack_domains (sources : list (string * string))
    (attack_data : list (string * value)) : list (string * value) * list event :=
  match sources with
  | [] => (attack_data, [])
  | (domain, url) :: sources' =>
      if Py.str_contains "attack" domain then
        let '(r, tr) := download_with_retry w url 3 in
        let '(attack_data', tr') :=
          match r with
          | Ok data =>
              let filename := Updater.output_dir self +:+ "/" +:+ domain +:+ "_raw.json" in
              (Py.setitem domain data attack_data,
               match save filename "Data saved: " with
               | (Ok _, trs) => trs
               | (Raise e, trs) => trs ++ [LogExn ERROR ("Error for " +:+ domain +:+ ": ") e]
               end)
          | Raise e => (attack_data, [LogExn ERROR ("Error for " +:+ domain +:+ ": ") e])
          end in
        let '(final, rest) := fetch_attack_domains sources' attack_data' in
        (final, tr ++ tr' ++ rest)
      else fetch_attack_domains sources' attack_data
  end.

Definition fetch_attack_data : list (string * value) * list event :=
  let '(attack_data, tr) := fetch_attack_domains (Updater.sources self) [] in
  (attack_data, Log INFO "Fetching MITRE ATT&CK data..." :: tr).

(** The [try] of [fetch_capec_data] and [fetch_d3fend_data]: look the URL
    up, download, save, return the document; any exception is logged and
    the empty dict returned. *)
Definition fetch_single (source : string) (filename : string) (saved : string)
    (lv : level) (failure : string) : value * list event :=
  match Py.assoc source (Updater.sources self) with
  | None => (VDict [], [LogExn lv failure (KeyError source)])
  | Some url =>
      match download_with_retry w url 3 with
      | (Ok data, tr) =>
          match save filename saved with
          | (Ok _, trs) => (data, tr ++ trs)
          | (Raise e, trs) => (VDict [], tr ++ trs ++ [LogExn lv failure e])
          end
      | (Raise e, tr) => (VDict [], tr ++ [LogExn lv failure e])
      end
  end.

Definition fetch_capec_data : value * list event :=
  let '(capec_data, tr) :=
    fetch_single "capec_stix" (Updater.output_dir self +:+ "/capec_raw.json")
      "CAPEC data saved: " ERROR "CAPEC error: " in
  (capec_data, Log INFO "Fetching CAPEC data..." :: tr).

Definition fetch_d3fend_data : value * list event :=
  let '(d3fend_data, tr) :=
    fetch_single "d3fend_base" (Updater.output_dir self +:+ "/d3fend_raw.json")
      "D3FEND data saved: " WARNING "D3FEND not available via API: " in
  (d3fend_data, Log INFO "Fetching D3FEND data..." :: tr).

End Fetch.

(** ** The consolidated document *)

Module DataSources.
Record t : Type := {
  attack_techniques_count : nat;
  attack_mitigations_count : nat;
  capec_patterns_count : nat;
  d3fend_available : bool;
  stride_categories : nat
}.
End DataSources.

Module Metadata.
Record t : Type := {
  generated_at : string;
  version : string;
  mapping_source : string;
  data_sources : DataSources.t
}.
End Metadata.

Module Coverage.
Record t : Type := {
  capec_count : nat;
  attack_count : nat
}.
End Coverage.

Module FrameworkStats.
Record t : Type := {
  total_capec_mapped : nat;
  total_attack_mapped : nat;
  coverage_by_category : list (string * Coverage.t)
}.
End FrameworkStats.

Module SampleData.
Record t : Type := {
  attack_techniques : list Technique.t;
  attack_mitigations : list Mitigation.t;
  capec_patterns : list Pattern.t
}.
End SampleData.

Module Consolidated.
Record t : Type := {
  metadata : Metadata.t;
  stride_mapping : list (string * CategoryMapping.t);
  framework_stats : FrameworkStats.t;
  sample_data : SampleData.t
}.
End Consolidated.

(** [sum(xs)] over lengths. *)
Definition sum_nat (xs : list nat) : nat := foldr Nat.add 0%nat xs.

(** The dict literal [consolidated] of [generate_consolidated_mapping]. *)
Definition consolidated_of (self : Updater.t) (generated_at : string)
    (techniques : list Technique.t) (mitigations : list Mitigation.t)
    (capec_patterns : list Pattern.t) (d3fend_data : value)
    (stride_mapping : list (string * CategoryMapping.t)) : Consolidated.t :=
  {| Consolidated.metadata :=
       {| Metadata.generated_at := generated_at;
          Metadata.version := "2.0";
          Metadata.mapping_source := "Official STRIDE-CAPEC mappings from community research";
          Metadata.data_sources :=
            {| DataSources.attack_techniques_count := length techniques;
               DataSources.attack_mitigations_count := length mitigations;
               DataSources.capec_patterns_count := length capec_patterns;
               DataSources.d3fend_available := Py.truthy d3fend_data;
               DataSources.stride_categories := length (Updater.stride_capec_mappings self) |} |};
     Consolidated.stride_mapping := stride_mapping;
     Consolidated.framework_stats :=
       {| FrameworkStats.total_capec_mapped :=
            sum_nat (map (fun c => length (CategoryMapping.capec_patterns (snd c))) stride_mapping);
          FrameworkStats.total_attack_mapped :=
            sum_nat (map (fun c => length (CategoryMapping.attack_techniques (snd c))) stride_mapping);
          FrameworkStats.coverage_by_category :=
            map (fun c =>
                   (fst c,
                    {| Coverage.capec_count := length (CategoryMapping.capec_patterns (snd c));
                       Coverage.attack_count := length (CategoryMapping.attack_techniques (snd c)) |}))
                stride_mapping |};
     Consolidated.sample_data :=
       {| SampleData.attack_techniques := take 10 techniques;
          SampleData.attack_mitigations := take 10 mitigations;
          SampleData.capec_patterns := take 10 capec_patterns |} |}.

(** Sequencing of effectful steps: the trace grows, an exception stops. *)
Definition ebind {A B} (c : eff A) (k : A -> eff B) : eff B :=
  match c with
  | (Ok a, tr) => let '(r, tr') := k a in (r, tr ++ tr')
  | (Raise e, tr) => (Raise e, tr)
  end.

Notation "x <~ c ;; k" := (ebind c (fun x => k))
  (at level 100, c at next level, right associativity).

Definition pure {A} (r : result A) : eff A := (r, []).
Definition total {A} (c : A * list event) : eff A := (Ok (fst c), snd c).

Definition generate_consolidated_mapping (self : Updater.t) (w : World) : eff Consolidated.t :=
  _ <~ (Ok tt, [Log INFO "Generating consolidated mapping..."]) ;;
  attack_data <~ total (fetch_attack_data self w) ;;
  capec_data <~ total (fetch_capec_data self w) ;;
  d3fend_data <~ total (fetch_d3fend_data self w) ;;
  techniques <~ pure (parse_attack_techniques attack_data) ;;
  mitigations <~ pure (parse_attack_mitigations attack_data) ;;
  capec_patterns <~ pure (parse_capec_patterns capec_data) ;;
  stride_mapping <~ create_stride_mapping_with_real_data self techniques capec_patterns ;;
  let consolidated :=
    consolidated_of self (now w) techniques mitigations capec_patterns d3fend_data
      stride_mapping in
  _ <~ save w (Updater.output_dir self +:+ "/consolidated_mapping.json")
         "Consolidated mapping saved: " ;;
  (Ok consolidated, []).

(** ** Reference behaviours and sample inputs *)

(** The requests and waits of [k] failed attempts, the first of index [start]. *)
Fixpoint backoff_actions (url : string) (start k : nat) : list event :=
  match k with
  | O => []
  | S k' => Get url :: Sleep (2 ^ Z.of_nat start) :: backoff_actions url (S start) k'
  end.

(** The attempt of index [i] at [url] fails. *)
Definition attempt_fails (w : World) (url : string) (i : nat) : Prop :=
  exists msg, net w url i = Failed msg.

Definition empty_bundle : value := VDict [("objects", VList [])].

(** Every endpoint answers 503 twice and then serves an empty bundle. *)
Definition flaky_world : World :=
  {| net := fun _ i => match i with
                       | 0%nat | 1%nat => Failed "503 Server Error"
                       | _ => Parsed empty_bundle
                       end;
     writable := fun _ => true;
     dump_error := fun _ => None;
     now := "2025-08-18T00:00:00" |}.

(** No endpoint ever answers. *)
Definition offline_world : World :=
  {| net := fun _ _ => Failed "Connection refused";
     writable := fun _ => true;
     dump_error := fun _ => None;
     now := "2025-08-18T00:00:00" |}.

(** A technique bundle whose only record has an empty reference list. *)
Definition unreferenced_record (kind : string) : value :=
  VDict [("type", VStr kind); ("name", VStr "Rogue AP"); ("external_references", VList [])].

Definition unreferenced_bundle (kind : string) : list (string * value) :=
  [("attack_enterprise", VDict [("objects", VList [unreferenced_record kind])])].

(** A well-shaped technique record, and one whose kill-chain phase has no
    [phase_name]. *)
Definition phishing_record : value :=
  VDict [("type", VStr "attack-pattern");
         ("id", VStr "attack-pattern--a62a8db3");
         ("name", VStr "Phishing");
         ("description", VStr "Adversaries may send phishing messages.");
         ("external_references",
          VList [VDict [("source_name", VStr "mitre-attack"); ("external_id", VStr "T1566")]]);
         ("kill_chain_phases",
          VList [VDict [("kill_chain_name", VStr "mitre-attack");
                        ("phase_name", VStr "initial-access")]])].

Definition phishing_technique : Technique.t :=
  {| Technique.id := VStr "T1566";
     Technique.name := VStr "Phishing";
     Technique.description := VStr "Adversaries may send phishing messages.";
     Technique.domain := "attack_enterprise";
     Technique.tactics := [VStr "initial-access"];
     Technique.stix_id := VStr "attack-pattern--a62a8db3";
     Technique.created := VStr "";
     Technique.modified := VStr "";
     Technique.external_references :=
       VList [VDict [("source_name", VStr "mitre-attack"); ("external_id", VStr "T1566")]] |}.

Definition phaseless_record : value :=
  VDict [("type", VStr "attack-pattern");
         ("name", VStr "Drive-by Compromise");
         ("external_references",
          VList [VDict [("source_name", VStr "mitre-attack"); ("external_id", VStr "T1189")]]);
         ("kill_chain_phases", VList [VDict [("kill_chain_name", VStr "mitre-attack")]])].

Definition mixed_bundle : list (string * value) :=
  [("attack_enterprise", VDict [("objects", VList [phishing_record; phaseless_record])])].

(** The records [records_of_type] looks at in a document that is a dict
    with a list under [objects]. *)
Definition objects_of (data : value) : list value :=
  match data with
  | VDict d => match Py.assoc "objects" d with
               | Some (VList objs) => objs
               | _ => []
               end
  | _ => []
  end.

Definition has_type (ty : string) (obj : value) : Prop :=
  exists kind, Py.get obj "type" VNone = Ok kind /\ Py.eq_str kind ty = true.

(** A normalised pattern with the given identifier, name and description. *)
Definition pattern (id name description : string) : Pattern.t :=
  {| Pattern.id := VStr id; Pattern.name := VStr name;
     Pattern.description := VStr description;
     Pattern.stix_id := VStr ""; Pattern.created := VStr ""; Pattern.modified := VStr "";
     Pattern.external_references := VList [] |}.

Definition content_spoofing : Pattern.t :=
  pattern "CAPEC-148" "Content Spoofing" "An adversary modifies content.".

Definition audit_log_manipulation : Pattern.t :=
  pattern "CAPEC-268" "Audit Log Manipulation" "The attacker alters the log.".

(** An updater whose Spoofing list repeats an identifier. *)
Definition repeating_updater : Updater.t :=
  {| Updater.output_dir := "cybersec_data";
     Updater.sources := default_sources;
     Updater.stride_capec_mappings :=
       [("Spoofing",
         {| MappingInfo.description := "Identity falsification attacks";
            MappingInfo.capec_ids := ["CAPEC-148"; "CAPEC-148"; "CAPEC-999"] |})];
     Updater.stride_categories := default_stride_categories |}.

(** The entry of [category] in a computed mapping. *)
Definition entry_of (category : string) (mapping : result (list (string * CategoryMapping.t)))
  : option CategoryMapping.t :=
  match mapping with
  | Ok entries => Py.assoc category entries
  | Raise _ => None
  end.

(** Every entry of the index is stored under its own identifier and comes
    from the pattern list. *)
Definition index_sound (patterns : list Pattern.t) (capec_by_id : gmap string Pattern.t) : Prop :=
  forall k p, capec_by_id !! k = Some p -> Pattern.id p = VStr k /\ In p patterns.

(** The identifiers of a list of pattern summaries. *)
Definition summary_ids (summaries : list PatternSummary.t) : list value :=
  map PatternSummary.id summaries.

(** The curated identifiers the index knows, in curated order. *)
Definition indexed_ids (capec_by_id : gmap string Pattern.t) (capec_ids : list string)
  : list string :=
  List.filter (fun capec_id => bool_decide (is_Some (capec_by_id !! capec_id))) capec_ids.

(** How often the string [id] occurs among identifiers. *)
Definition occurrences (id : string) (ids : list value) : nat :=
  length (List.filter (fun v => Py.eq_str v id) ids).

(** [needle] occurs in [hay]: some text before, [needle], some text after. *)
Definition substring_of (needle hay : string) : Prop :=
  exists before after, hay = before +:+ needle +:+ after.

(** The test of the technique loop for one technique. *)
Definition matched (keywords : list string) (tech : Technique.t) : bool :=
  match desc_lower tech with
  | Ok text => any_keyword keywords text
  | Raise _ => false
  end.

Definition is_str (v : value) : bool :=
  match v with
  | VStr _ => true
  | _ => false
  end.

(** Name and description are text. *)
Definition textual (tech : Technique.t) : bool :=
  is_str (Technique.name tech) && is_str (Technique.description tech).

(** Identifier and description are text. *)
Definition textual_pattern (p : Pattern.t) : bool :=
  is_str (Pattern.id p) && is_str (Pattern.description p).

(** A normalised technique with the given identifier, name and description. *)
Definition technique (id name description : string) : Technique.t :=
  {| Technique.id := VStr id; Technique.name := VStr name;
     Technique.description := VStr description;
     Technique.domain := "attack_enterprise"; Technique.tactics := [];
     Technique.stix_id := VStr ""; Technique.created := VStr ""; Technique.modified := VStr "";
     Technique.external_references := VList [] |}.

Definition rogue_ap : Technique.t :=
  technique "T1" "Rogue AP"
    "An attacker sets up a fake access point to impersonate a legitimate network".

Definition screen_capture : Technique.t :=
  technique "T2" "Screen Capture" "Takes pictures of the desktop".

Definition log_injection : Technique.t :=
  technique "T3" "Log Injection" "Forged entries are injected into the audit log".

(** The categories of the program's table whose keywords match [tech]. *)
Definition categories_matching (tech : Technique.t) : list string :=
  List.filter (fun category => matched (keywords_of category) tech)
              (map fst default_stride_capec_mappings).

(** Following the words of the specification: the lowercased concatenation
    of the name and the description of a technique, name first, nothing in
    between. *)
Definition name_then_description (name description : string) : string :=
  Py.lower (name +:+ description).

(** A technique whose name ends with the first half of a keyword and whose
    description starts with the second half. *)
Definition split_keyword : Technique.t := technique "T4" "kefa" "kefa".


(** A bundle of [n] technique records and one mitigation record. *)
Definition numbered_record (i : nat) : value :=
  VDict [("type", VStr "attack-pattern");
         ("name", VStr ("Technique " +:+ pretty i));
         ("description", VStr "Adversaries may exfiltrate data.");
         ("external_references",
          VList [VDict [("source_name", VStr "capec"); ("external_id", VStr ("T" +:+ pretty i))]])].

Definition hardening_record : value :=
  VDict [("type", VStr "course-of-action"); ("name", VStr "Audit")].

Definition large_bundle (n : nat) : value :=
  VDict [("objects", VList (map numbered_record (seq 0 n) ++ [hardening_record]))].

(** Every endpoint serves a bundle of twelve records at the first attempt. *)
Definition busy_world : World :=
  {| net := fun _ _ => Parsed (large_bundle 12);
     writable := fun _ => true;
     dump_error := fun _ => None;
     now := "2025-08-18T00:00:00" |}.


(** ** Further reference notions *)

(** The number of requests of a trace. *)
Fixpoint requests (tr : list event) : nat :=
  match tr with
  | [] => 0%nat
  | Get _ :: tr' => S (requests tr')
  | _ :: tr' => requests tr'
  end.

(** The seconds a trace spends in [time.sleep]. *)
Fixpoint slept (tr : list event) : Z :=
  match tr with
  | [] => 0
  | Sleep seconds :: tr' => seconds + slept tr'
  | _ :: tr' => slept tr'
  end.

(** The files a trace writes, in full or in part. *)
Fixpoint written (tr : list event) : list string :=
  match tr with
  | [] => []
  | Write path :: tr' => path :: written tr'
  | Partial path :: tr' => path :: written tr'
  | _ :: tr' => written tr'
  end.

(** The files a trace writes in full. *)
Fixpoint saved (tr : list event) : list string :=
  match tr with
  | [] => []
  | Write path :: tr' => path :: saved tr'
  | _ :: tr' => saved tr'
  end.

(** The sources [fetch_attack_data] downloads. *)
Definition attack_sources (self : Updater.t) : list (string * string) :=
  List.filter (fun source => Py.str_contains "attack" (fst source)) (Updater.sources self).


(** A trace that makes at most [reqs] requests, sleeps at most [secs]
    seconds and writes only files of [files]. *)
Definition within (reqs : nat) (secs : Z) (files : list string) (tr : list event) : Prop :=
  (requests tr <= reqs)%nat /\
  0 <= slept tr <= secs /\
  forall path, In path (written tr) -> In path files.

(** The snapshot files of a run: one per ATT&CK source, CAPEC, D3FEND. *)
Definition snapshot_files (self : Updater.t) : list string :=
  map (fun source => Updater.output_dir self +:+ "/" +:+ fst source +:+ "_raw.json")
      (attack_sources self)
  ++ [Updater.output_dir self +:+ "/capec_raw.json";
      Updater.output_dir self +:+ "/d3fend_raw.json"].

(** The consolidated file of a run. *)
Definition consolidated_file (self : Updater.t) : string :=
  Updater.output_dir self +:+ "/consolidated_mapping.json".

Definition is_dict (v : value) : bool :=
  match v with
  | VDict _ => true
  | _ => false
  end.

(** The record is a dict whose [type] is the string [ty]. *)
Definition type_is (ty : string) (obj : value) : bool :=
  match obj with
  | VDict d => match Py.assoc "type" d with
               | Some kind => Py.eq_str kind ty
               | None => false
               end
  | _ => false
  end.

(** The reference list of a record can be indexed by [[0].get(...)]: it is
    absent, or a list that starts with a dict. *)
Definition refs_indexable (d : list (string * value)) : bool :=
  match Py.assoc "external_references" d with
  | None => true
  | Some (VList (VDict _ :: _)) => true
  | Some _ => false
  end.

(** A kill-chain phase that is a dict with a [phase_name]. *)
Definition phase_named (phase : value) : bool :=
  match phase with
  | VDict p => match Py.assoc "phase_name" p with Some _ => true | None => false end
  | _ => false
  end.

(** The kill-chain phases of a record are absent, or can be iterated and
    every item is a named phase. *)
Definition phases_named (d : list (string * value)) : bool :=
  match Py.assoc "kill_chain_phases" d with
  | None => true
  | Some phases => match Py.iter phases with
                   | Ok items => forallb phase_named items
                   | Raise _ => false
                   end
  end.

(** The reference is a dict whose [source_name] is "capec". *)
Definition is_capec_ref (ref : value) : bool :=
  match ref with
  | VDict r => match Py.assoc "source_name" r with
               | Some source_name => Py.eq_str source_name "capec"
               | None => false
               end
  | _ => false
  end.

(** The [external_id] of the first CAPEC reference of a list, or the empty
    string. *)
Definition first_capec_id (refs : list value) : value :=
  match List.find is_capec_ref refs with
  | Some (VDict r) => match Py.assoc "external_id" r with
                      | Some external_id => external_id
                      | None => VStr EmptyString
                      end
  | _ => VStr EmptyString
  end.

(** A pattern record with a foreign reference before two CAPEC ones. *)
Definition cross_referenced : list (string * value) :=
  [("type", VStr "attack-pattern");
   ("external_references",
    VList [VDict [("source_name", VStr "cwe"); ("external_id", VStr "CWE-345")];
           VDict [("source_name", VStr "capec"); ("external_id", VStr "CAPEC-148")];
           VDict [("source_name", VStr "capec"); ("external_id", VStr "CAPEC-1")]])].

(** The string contains a space. *)
Fixpoint has_space (s : string) : bool :=
  match s with
  | EmptyString => false
  | String c s' => Ascii.eqb c " " || has_space s'
  end.

(** The patterns of a list whose identifier is the string [k]. *)
Definition patterns_with_id (k : string) (patterns : list Pattern.t) : list Pattern.t :=
  List.filter (fun p => Py.eq_str (Pattern.id p) k) patterns.


(** Two patterns with the same identifier, and one without identifier. *)
Definition superseded : Pattern.t := pattern "CAPEC-148" "Content Spoofing (old)" "Old text.".
Definition anonymous : Pattern.t := pattern "" "Unnamed" "No CAPEC reference.".

(** A pattern whose description has 250 characters. *)
Definition verbose_text : string :=
  String.concat EmptyString (repeat "0123456789" 25).

Definition verbose_pattern : Pattern.t := pattern "CAPEC-1" "Verbose" verbose_text.

(** An updater with one category that the keyword table does not know. *)
Definition custom_updater : Updater.t :=
  {| Updater.output_dir := "cybersec_data";
     Updater.sources := default_sources;
     Updater.stride_capec_mappings :=
       [("Lateral Movement",
         {| MappingInfo.description := "Moving through the network";
            MappingInfo.capec_ids := ["CAPEC-148"] |})];
     Updater.stride_categories := default_stride_categories |}.



(** Every endpoint serves a bundle and every file opens, but the dump of
    the consolidated file fails on a full disk. *)
Definition full_disk_world : World :=
  {| net := fun _ _ => Parsed (large_bundle 2);
     writable := fun _ => true;
     dump_error := fun path =>
                     if String.eqb path "cybersec_data/consolidated_mapping.json"
                     then Some (OSError "No space left on device")
                     else None;
     now := "2025-08-18T00:00:00" |}.

(** * Properties *)

(** ** Resilient fetcher *)

Lemma retry_loop_parsed (w : World) (url : string) (n : Z) (fuel a : nat) (doc : value) :
  net w url a = Parsed doc ->
  retry_loop w url n (S fuel) a = (Ok doc, attempt_start url a).
Proof. intros H. simpl. now rewrite H. Qed.

Lemma retry_loop_retry (w : World) (url : string) (n : Z) (fuel a : nat) (msg : string) :
  net w url a = Failed msg ->
  Z.of_nat a < n - 1 ->
  retry_loop w url n (S fuel) a =
    (fst (retry_loop w url n fuel (S a)),
     attempt_start url a
       ++ [attempt_warning a (RequestException msg); Sleep (2 ^ Z.of_nat a)]
       ++ snd (retry_loop w url n fuel (S a))).
Proof.
  intros H Hlt. cbn [retry_loop]. rewrite H.
  destruct (Z.ltb_spec (Z.of_nat a) (n - 1)) as [_|Hge]; [|lia].
  now destruct (retry_loop w url n fuel (S a)).
Qed.

Lemma retry_loop_give_up (w : World) (url : string) (n : Z) (fuel a : nat) (msg : string) :
  net w url a = Failed msg ->
  n - 1 <= Z.of_nat a ->
  retry_loop w url n (S fuel) a =
    (Raise (RequestException msg),
     (attempt_start url a ++ [attempt_warning a (RequestException msg)])
       ++ [Log ERROR ("Permanent failure for " +:+ url)]).
Proof.
  intros H Hge. cbn [retry_loop]. rewrite H.
  destruct (Z.ltb_spec (Z.of_nat a) (n - 1)) as [Hlt|_]; [lia|reflexivity].
Qed.

Lemma actions_failed_attempt (url : string) (a : nat) (e : exn) (tr : list event) :
  actions (attempt_start url a ++ [attempt_warning a e; Sleep (2 ^ Z.of_nat a)] ++ tr) =
    Get url :: Sleep (2 ^ Z.of_nat a) :: actions tr.
Proof. reflexivity. Qed.

Lemma retry_loop_success (w : World) (url : string) (n : Z) (doc : value) (k : nat) :
  forall fuel a,
    (forall i, (i < k)%nat -> attempt_fails w url (a + i)) ->
    net w url (a + k) = Parsed doc ->
    Z.of_nat (a + k) < n ->
    (k < fuel)%nat ->
    exists tr, retry_loop w url n fuel a = (Ok doc, tr) /\
               actions tr = backoff_actions url a k ++ [Get url].
Proof.
  induction k as [|k IH]; intros fuel a Hfail Hok Hlt Hfuel;
    (destruct fuel as [|fuel]; [lia|]).
  - replace (a + 0)%nat with a in Hok by lia.
    rewrite (retry_loop_parsed _ _ _ _ _ _ Hok). eexists; split; reflexivity.
  - destruct (Hfail 0%nat ltac:(lia)) as [msg Hmsg].
    replace (a + 0)%nat with a in Hmsg by lia.
    rewrite (retry_loop_retry _ _ _ _ _ _ Hmsg) by lia.
    destruct (IH fuel (S a)) as [tr [Hrun Hact]].
    + intros i Hi. replace (S a + i)%nat with (a + S i)%nat by lia. apply Hfail. lia.
    + replace (S a + k)%nat with (a + S k)%nat by lia. exact Hok.
    + lia.
    + lia.
    + rewrite Hrun. eexists; split; [reflexivity|].
      cbn [snd]. rewrite actions_failed_attempt, Hact. reflexivity.
Qed.

Lemma retry_loop_exhausted (w : World) (url : string) (n : Z) :
  forall fuel a,
    (forall i, (i < S fuel)%nat -> attempt_fails w url (a + i)) ->
    Z.of_nat (a + S fuel) = n ->
    exists msg tr,
      net w url (a + fuel) = Failed msg /\
      retry_loop w url n (S fuel) a =
        (Raise (RequestException msg), tr ++ [Log ERROR ("Permanent failure for " +:+ url)]) /\
      actions tr = backoff_actions url a fuel ++ [Get url].
Proof.
  induction fuel as [|fuel IH]; intros a Hfail Hn;
    destruct (Hfail 0%nat ltac:(lia)) as [msg0 Hmsg0];
    replace (a + 0)%nat with a in Hmsg0 by lia.
  - exists msg0. eexists. replace (a + 0)%nat with a by lia.
    split; [exact Hmsg0|]. split; [apply retry_loop_give_up; [exact Hmsg0|lia]|reflexivity].
  - destruct (IH (S a)) as [msg [tr [Hlast [Hrun Hact]]]].
    + intros i Hi. replace (S a + i)%nat with (a + S i)%nat by lia. apply Hfail. lia.
    + lia.
    + exists msg. replace (a + S fuel)%nat with (S a + fuel)%nat by lia.
      rewrite (retry_loop_retry _ _ _ _ _ _ Hmsg0) by lia. rewrite Hrun. cbn [fst snd].
      eexists (attempt_start url a
                 ++ [attempt_warning a (RequestException msg0); Sleep (2 ^ Z.of_nat a)] ++ tr).
      split; [exact Hlast|]. split; [reflexivity|].
      rewrite actions_failed_attempt, Hact. reflexivity.
Qed.

(** C9. With a maximum attempt count of zero or less the loop body never
    runs: no request is made, nothing is logged or raised, and the call
    returns [None]. *)
Theorem download_with_retry_no_attempts (w : World) (url : string) (max_retries : Z) :
  max_retries <= 0 ->
  download_with_retry w url max_retries = (Ok VNone, []).
Proof.
  intros Hn. unfold download_with_retry.
  replace (Z.to_nat max_retries) with 0%nat by lia. reflexivity.
Qed.

Lemma download_with_retry_no_attempts_witness :
  0 <= 0 /\ -1 <= 0 /\
  download_with_retry offline_world "https://example.org/doc.json" 0 = (Ok VNone, []) /\
  download_with_retry flaky_world "https://example.org/doc.json" (-1) = (Ok VNone, []).
Proof.
  split; [lia|]. split; [lia|].
  split; apply download_with_retry_no_attempts; lia.
Defined.

(** C4. With a maximum attempt count [n >= 1]: the first request is made
    before any wait; a failed attempt of index [i] that is not the last is
    followed by a wait of [2^i]; the first successful attempt returns its
    document and ends the call; when all [n] attempts fail the call raises
    the last error after logging the permanent failure of the endpoint. *)
Theorem download_with_retry_backoff (w : World) (url : string) (n : Z) :
  1 <= n ->
  (forall (k : nat) (doc : value),
      Z.of_nat k < n ->
      (forall i, (i < k)%nat -> attempt_fails w url i) ->
      net w url k = Parsed doc ->
      exists tr, download_with_retry w url n = (Ok doc, tr) /\
                 actions tr = backoff_actions url 0 k ++ [Get url]) /\
  ((forall i, Z.of_nat i < n -> attempt_fails w url i) ->
   exists msg tr,
     net w url (Z.to_nat (n - 1)) = Failed msg /\
     download_with_retry w url n =
       (Raise (RequestException msg), tr ++ [Log ERROR ("Permanent failure for " +:+ url)]) /\
     actions tr = backoff_actions url 0 (Z.to_nat (n - 1)) ++ [Get url]).
Proof.
  intros Hn. split.
  - intros k doc Hk Hfail Hok. unfold download_with_retry.
    apply retry_loop_success; simpl; auto; lia.
  - intros Hfail. unfold download_with_retry.
    replace (Z.to_nat n) with (S (Z.to_nat (n - 1))) by lia.
    apply (retry_loop_exhausted w url n (Z.to_nat (n - 1)) 0%nat).
    + intros i Hi. simpl. apply Hfail. lia.
    + lia.
Qed.

Lemma download_with_retry_backoff_witness :
  1 <= 3 /\
  (exists tr,
      download_with_retry flaky_world "https://example.org/doc.json" 3 = (Ok empty_bundle, tr) /\
      actions tr =
        [Get "https://example.org/doc.json"; Sleep 1;
         Get "https://example.org/doc.json"; Sleep 2;
         Get "https://example.org/doc.json"]) /\
  (exists msg tr,
      net offline_world "https://example.org/doc.json" 2 = Failed msg /\
      download_with_retry offline_world "https://example.org/doc.json" 3 =
        (Raise (RequestException msg),
         tr ++ [Log ERROR "Permanent failure for https://example.org/doc.json"]) /\
      actions tr =
        [Get "https://example.org/doc.json"; Sleep 1;
         Get "https://example.org/doc.json"; Sleep 2;
         Get "https://example.org/doc.json"]).
Proof.
  split; [lia|]. split.
  - destruct (download_with_retry_backoff flaky_world "https://example.org/doc.json" 3
                ltac:(lia)) as [Hsuccess _].
    apply (Hsuccess 2%nat empty_bundle).
    + lia.
    + intros [|[|i]] Hi; [eexists; reflexivity | eexists; reflexivity | lia].
    + reflexivity.
  - destruct (download_with_retry_backoff offline_world "https://example.org/doc.json" 3
                ltac:(lia)) as [_ Hfailure].
    apply Hfailure. intros i _. eexists; reflexivity.
Defined.

(** ** Catalog normaliser *)

Lemma collect_ok {A B} (f : A -> result (list B)) (xs : list A) (out : list B) (x : A) :
  collect f xs = Ok out -> In x xs ->
  exists ys, f x = Ok ys /\ forall y, In y ys -> In y out.
Proof.
  revert out. induction xs as [|z zs IH]; intros out Hrun Hin; [destruct Hin|].
  simpl in Hrun. destruct (f z) as [ys|] eqn:Hz; [|discriminate].
  simpl in Hrun. destruct (collect f zs) as [rest|] eqn:Hzs; [|discriminate].
  simpl in Hrun. injection Hrun as <-.
  destruct Hin as [->|Hin].
  - exists ys. split; [exact Hz|]. intros y Hy. apply in_or_app. now left.
  - destruct (IH rest eq_refl Hin) as [ys' [Hx Hsub]].
    exists ys'. split; [exact Hx|]. intros y Hy. apply in_or_app. right. now apply Hsub.
Qed.

(** When the documents normalise, every record of the requested type was
    normalised and is in the result. *)
Lemma records_of_type_ok {A} (ty : string) (f : value -> result A) (data : value)
    (out : list A) (obj : value) :
  records_of_type ty f data = Ok out ->
  In obj (objects_of data) -> has_type ty obj ->
  exists r, f obj = Ok r /\ In r out.
Proof.
  intros Hrun Hin [kind [Hkind Hty]].
  destruct data as [| | | |l|d]; try (destruct Hin; fail).
  unfold objects_of in Hin. unfold records_of_type in Hrun. simpl in Hrun.
  destruct (Py.assoc "objects" d) as [objects|] eqn:Hobjects; [|destruct Hin].
  destruct objects as [| | | |objs|]; try (destruct Hin; fail).
  simpl in Hrun.
  destruct (collect_ok _ _ _ obj Hrun Hin) as [ys [Hobj Hsub]].
  rewrite Hkind in Hobj. simpl in Hobj. rewrite Hty in Hobj.
  destruct (f obj) as [r|] eqn:Hf; [|discriminate].
  simpl in Hobj. injection Hobj as <-.
  exists r. split; [reflexivity|]. apply Hsub. now left.
Qed.

Lemma first_external_id_empty (d : list (string * value)) :
  Py.assoc "external_references" d = Some (VList []) ->
  first_external_id (VDict d) = Raise IndexError.
Proof. intros H. unfold first_external_id. simpl. rewrite H. reflexivity. Qed.

Lemma first_external_id_absent (d : list (string * value)) :
  Py.assoc "external_references" d = None ->
  first_external_id (VDict d) = Ok (VStr "").
Proof. intros H. unfold first_external_id. simpl. rewrite H. reflexivity. Qed.

(** C5. A technique or mitigation record whose [external_references] list
    is present and empty is not given the empty identifier: [[][0]] raises
    [IndexError] and the normalisation of the whole input is lost. The
    default [[{}]] only covers the absent key, and the pattern normaliser,
    which loops over the list, does give the empty identifier. *)
Theorem empty_references_raise :
  parse_attack_techniques (unreferenced_bundle "attack-pattern") = Raise IndexError /\
  parse_attack_mitigations (unreferenced_bundle "course-of-action") = Raise IndexError /\
  first_external_id (VDict [("type", VStr "attack-pattern"); ("name", VStr "Rogue AP")])
    = Ok (VStr "") /\
  (exists pattern,
      parse_capec_patterns (VDict [("objects", VList [unreferenced_record "attack-pattern"])])
        = Ok [pattern] /\
      Pattern.id pattern = VStr "").
Proof.
  split; [reflexivity|]. split; [reflexivity|]. split; [reflexivity|].
  eexists; split; reflexivity.
Qed.

(** C6, as the code has it. A record that lacks the expected shape is not
    skipped. For every attack-pattern record of every source document: if
    it fails to normalise, the normalisation of the whole input raises and
    returns no record; and whenever the normalisation returns, the record
    was normalised and is in the result. *)
Theorem parse_attack_techniques_all_or_nothing
    (attack_data : list (string * value)) (domain : string) (data obj : value) :
  In (domain, data) attack_data ->
  In obj (objects_of data) ->
  has_type "attack-pattern" obj ->
  (forall e, technique_of domain obj = Raise e ->
             exists e', parse_attack_techniques attack_data = Raise e') /\
  (forall out, parse_attack_techniques attack_data = Ok out ->
               exists t, technique_of domain obj = Ok t /\ In t out).
Proof.
  intros Hdata Hobj Hty.
  assert (Hok : forall out, parse_attack_techniques attack_data = Ok out ->
                            exists t, technique_of domain obj = Ok t /\ In t out).
  { intros out Hrun. unfold parse_attack_techniques in Hrun.
    destruct (collect_ok _ _ _ (domain, data) Hrun Hdata) as [ys [Hdoc Hsub]].
    destruct (records_of_type_ok _ _ _ _ obj Hdoc Hobj Hty) as [t [Ht Hin]].
    exists t. split; [exact Ht|]. now apply Hsub. }
  split; [|exact Hok].
  intros e He. destruct (parse_attack_techniques attack_data) as [out|e'] eqn:Hrun.
  - destruct (Hok out eq_refl) as [t [Ht _]]. congruence.
  - eexists; reflexivity.
Qed.

Lemma parse_attack_techniques_all_or_nothing_witness :
  (exists e', parse_attack_techniques mixed_bundle = Raise e') /\
  (exists t, technique_of "attack_enterprise" phishing_record = Ok t /\
             In t [phishing_technique]).
Proof.
  split.
  - refine (proj1 (parse_attack_techniques_all_or_nothing mixed_bundle "attack_enterprise"
                     (VDict [("objects", VList [phishing_record; phaseless_record])])
                     phaseless_record _ _ _) (KeyError "phase_name") eq_refl).
    + left; reflexivity.
    + right; left; reflexivity.
    + exists (VStr "attack-pattern"). split; reflexivity.
  - refine (proj2 (parse_attack_techniques_all_or_nothing
                     [("attack_enterprise", VDict [("objects", VList [phishing_record])])]
                     "attack_enterprise" (VDict [("objects", VList [phishing_record])])
                     phishing_record _ _ _) [phishing_technique] eq_refl).
    + left; reflexivity.
    + left; reflexivity.
    + exists (VStr "attack-pattern"). split; reflexivity.
Defined.

(** C6, as stated, fails: the bundle holds the well-shaped Phishing record
    and a record whose kill-chain phase has no phase name; the normaliser
    raises [KeyError] and the Phishing technique is not returned. *)
Lemma malformed_record_aborts :
  technique_of "attack_enterprise" phishing_record = Ok phishing_technique /\
  parse_attack_techniques mixed_bundle = Raise (KeyError "phase_name") /\
  ~ (exists out, parse_attack_techniques mixed_bundle = Ok out /\ In phishing_technique out).
Proof.
  split; [reflexivity|]. split; [reflexivity|].
  intros [out [Hrun _]]. discriminate Hrun.
Qed.

(** ** Correlation engine: curated patterns *)

Lemma index_patterns_sound (patterns all : list Pattern.t) :
  forall capec_by_id capec_by_id',
    (forall p, In p patterns -> In p all) ->
    index_sound all capec_by_id ->
    index_patterns capec_by_id patterns = Ok capec_by_id' ->
    index_sound all capec_by_id'.
Proof.
  induction patterns as [|p ps IH]; intros m m' Hsub Hm Hrun; simpl in Hrun.
  - injection Hrun as <-. exact Hm.
  - destruct (index_pattern m p) as [m1|] eqn:Hstep; [|discriminate]. simpl in Hrun.
    apply (IH m1 m'); [intros q Hq; apply Hsub; now right| |exact Hrun].
    unfold index_pattern in Hstep.
    destruct (Py.truthy (Pattern.id p)); [|injection Hstep as <-; exact Hm].
    destruct (Pattern.id p) as [| | |s| |] eqn:Hid; try discriminate;
      try (injection Hstep as <-; exact Hm).
    injection Hstep as <-. intros k q Hk.
    destruct (decide (s = k)) as [->|Hne].
    + rewrite lookup_insert_eq in Hk. injection Hk as <-.
      split; [exact Hid|]. apply Hsub. now left.
    + rewrite lookup_insert_ne in Hk by exact Hne. now apply Hm.
Qed.

(** The pattern loop emits one summary for every occurrence of a curated
    identifier the index knows, in curated order; the set of found
    identifiers is filled on the side and decides nothing. *)
Lemma map_capec_patterns_ids (patterns : list Pattern.t) (capec_by_id : gmap string Pattern.t) :
  index_sound patterns capec_by_id ->
  forall capec_ids acc found out found',
    map_capec_patterns capec_by_id capec_ids acc found = Ok (out, found') ->
    summary_ids out = summary_ids acc ++ map VStr (indexed_ids capec_by_id capec_ids) /\
    found' = list_to_set (indexed_ids capec_by_id capec_ids) ∪ found.
Proof.
  intros Hidx. induction capec_ids as [|k ks IH]; intros acc found out found' Hrun.
  - simpl in Hrun. injection Hrun as <- <-. unfold indexed_ids. simpl.
    rewrite app_nil_r. split; [reflexivity|set_solver].
  - simpl in Hrun. unfold indexed_ids in *. simpl.
    destruct (capec_by_id !! k) as [p|] eqn:Hk.
    + rewrite bool_decide_eq_true_2 by eauto.
      destruct (pattern_summary p) as [sm|] eqn:Hsm; [|discriminate]. simpl in Hrun.
      destruct (IH _ _ _ _ Hrun) as [Hids Hfound]. split.
      * rewrite Hids. unfold summary_ids. rewrite map_app. simpl.
        unfold pattern_summary in Hsm.
        destruct (summary_description (Pattern.description p)); [|discriminate].
        simpl in Hsm. injection Hsm as <-. simpl.
        rewrite (proj1 (Hidx k p Hk)). rewrite <- app_assoc. reflexivity.
      * rewrite Hfound. simpl. set_solver.
    + rewrite bool_decide_eq_false_2 by (intros [? ?]; discriminate).
      apply (IH _ _ _ _ Hrun).
Qed.

(** The pattern matches of a category are the curated identifiers the index
    knows, each as often as the curated list names it; the count is their
    number. *)
Lemma map_category_ids (patterns : list Pattern.t) (capec_by_id : gmap string Pattern.t)
    (techniques : list Technique.t) (category : string) (info : MappingInfo.t)
    (m : CategoryMapping.t) :
  index_sound patterns capec_by_id ->
  map_category capec_by_id techniques category info = Ok m ->
  summary_ids (CategoryMapping.capec_patterns m) =
    map VStr (indexed_ids capec_by_id (MappingInfo.capec_ids info)) /\
  CategoryMapping.capec_count m =
    length (indexed_ids capec_by_id (MappingInfo.capec_ids info)).
Proof.
  intros Hidx Hrun. unfold map_category in Hrun.
  destruct (map_capec_patterns capec_by_id (MappingInfo.capec_ids info) [] ∅)
    as [[out found]|] eqn:Hmapped; [simpl in Hrun|discriminate].
  destruct (map_attack_techniques _ techniques []) as [attack|]; [simpl in Hrun|discriminate].
  injection Hrun as <-. simpl.
  destruct (map_capec_patterns_ids patterns capec_by_id Hidx _ _ _ _ _ Hmapped) as [Hids _].
  simpl in Hids. split; [exact Hids|].
  rewrite <- (length_map PatternSummary.id out). fold (summary_ids out).
  rewrite Hids. apply length_map.
Qed.

(** C1. The matched list repeats a pattern as often as the curated list
    repeats its identifier. With the single pattern CAPEC-148 and the
    Spoofing list [CAPEC-148, CAPEC-148, CAPEC-999] the Spoofing entry has
    two summaries of CAPEC-148 and a count of 2; with the table of the
    program, whose Repudiation list names CAPEC-268 twice, the Repudiation
    entry has two summaries of CAPEC-268. *)
Theorem repeated_identifier_matched_twice :
  (exists m,
      entry_of "Spoofing" (stride_mapping_of repeating_updater [] [content_spoofing]) = Some m /\
      summary_ids (CategoryMapping.capec_patterns m) = [VStr "CAPEC-148"; VStr "CAPEC-148"] /\
      CategoryMapping.capec_count m = 2%nat /\
      ~ NoDup (summary_ids (CategoryMapping.capec_patterns m))) /\
  (exists m,
      entry_of "Repudiation" (stride_mapping_of (init "cybersec_data") [] [audit_log_manipulation])
        = Some m /\
      summary_ids (CategoryMapping.capec_patterns m) = [VStr "CAPEC-268"; VStr "CAPEC-268"] /\
      CategoryMapping.capec_count m = 2%nat).
Proof.
  split.
  - eexists. split; [vm_compute; reflexivity|]. split; [reflexivity|]. split; [reflexivity|].
    simpl. intros Hnd. apply NoDup_cons_1_1 in Hnd. apply Hnd. now left.
  - eexists. split; [vm_compute; reflexivity|]. split; reflexivity.
Qed.

(** C2. The identifier CAPEC-148 is in the Spoofing list and in the pattern
    index, and the Spoofing output holds it twice, not once. (Every emitted
    identifier is curated and indexed: [map_category_ids].) *)
Theorem curated_identifier_emitted_twice :
  exists capec_by_id m,
    index_patterns ∅ [content_spoofing] = Ok capec_by_id /\
    is_Some (capec_by_id !! "CAPEC-148") /\
    entry_of "Spoofing" (stride_mapping_of repeating_updater [] [content_spoofing]) = Some m /\
    occurrences "CAPEC-148" (summary_ids (CategoryMapping.capec_patterns m)) = 2%nat.
Proof.
  eexists _, _. split; [reflexivity|].
  split; [rewrite lookup_insert_eq; eauto|].
  split; [vm_compute; reflexivity|]. reflexivity.
Qed.

(** ** Correlation engine: keyword matching *)

Lemma prefix_app (a b : string) :
  String.prefix a b = true <-> exists after, b = a +:+ after.
Proof.
  revert b. induction a as [|c a IH]; intros b.
  - split; [intros _; exists b; reflexivity|intros _; destruct b; reflexivity].
  - destruct b as [|c' b]; [split; [discriminate|intros [after H]; discriminate]|].
    simpl. destruct (ascii_dec c c') as [->|Hne].
    + rewrite IH. split; intros [after H]; exists after.
      * now rewrite H.
      * now injection H.
    + split; [discriminate|]. intros [after H]. injection H as Hc _. congruence.
Qed.

Lemma str_contains_nil (needle : string) :
  Py.str_contains needle EmptyString = String.prefix needle EmptyString || false.
Proof. reflexivity. Qed.

Lemma str_contains_cons (needle : string) (c : ascii) (hay : string) :
  Py.str_contains needle (String c hay) =
    String.prefix needle (String c hay) || Py.str_contains needle hay.
Proof. reflexivity. Qed.

(** [Py.str_contains] is the substring relation. *)
Lemma str_contains_spec (needle hay : string) :
  Py.str_contains needle hay = true <-> substring_of needle hay.
Proof.
  unfold substring_of. induction hay as [|c hay IH].
  - rewrite str_contains_nil, orb_false_r, prefix_app. split.
    + intros [after H]. exists EmptyString, after. exact H.
    + intros [[|c b] [after H]]; [exists after; exact H|discriminate].
  - rewrite str_contains_cons, orb_true_iff, prefix_app, IH. split.
    + intros [[after H]|[before [after H]]].
      * exists EmptyString, after. exact H.
      * exists (String c before), after. simpl. now rewrite H.
    + intros [[|c' before] [after H]].
      * left. exists after. exact H.
      * right. exists before, after. now injection H.
Qed.

Lemma any_keyword_spec (keywords : list string) (text : string) :
  any_keyword keywords text = true <->
  exists keyword, In keyword keywords /\ substring_of keyword text.
Proof.
  unfold any_keyword. rewrite existsb_exists.
  split; intros [k [Hin Hk]]; exists k; (split; [exact Hin|]); now apply str_contains_spec.
Qed.

Lemma textual_desc_lower (tech : Technique.t) :
  textual tech = true ->
  exists d n, Technique.description tech = VStr d /\ Technique.name tech = VStr n /\
              desc_lower tech = Ok (Py.lower ((d +:+ " ") +:+ n)).
Proof.
  unfold textual, desc_lower. intros H. apply andb_true_iff in H as [Hn Hd].
  destruct (Technique.name tech) as [| | |n| |]; try discriminate.
  destruct (Technique.description tech) as [| | |d| |]; try discriminate.
  exists d, n. repeat split.
Qed.

(** The technique loop keeps, in traversal order, the techniques whose text
    holds a keyword. *)
Lemma map_attack_techniques_filter (keywords : list string) (techniques : list Technique.t) :
  Forall (fun tech => textual tech = true) techniques ->
  forall acc,
    map_attack_techniques keywords techniques acc =
      Ok (acc ++ map technique_summary (List.filter (matched keywords) techniques)).
Proof.
  induction 1 as [|tech techs Htech _ IH]; intros acc; simpl.
  - now rewrite app_nil_r.
  - destruct (textual_desc_lower tech Htech) as [d [n [_ [_ Htext]]]].
    unfold matched. rewrite Htext. simpl. rewrite IH.
    destruct (any_keyword keywords _); simpl; [now rewrite <- app_assoc|reflexivity].
Qed.

Lemma index_patterns_total (patterns : list Pattern.t) :
  Forall (fun p => textual_pattern p = true) patterns ->
  forall capec_by_id, exists capec_by_id', index_patterns capec_by_id patterns = Ok capec_by_id'.
Proof.
  induction 1 as [|p ps Hp _ IH]; intros m; simpl; [eauto|].
  unfold index_pattern, textual_pattern in *. apply andb_true_iff in Hp as [Hid _].
  destruct (Pattern.id p) as [| | |s| |]; try discriminate.
  destruct (Py.truthy (VStr s)); simpl; apply IH.
Qed.

Lemma map_capec_patterns_total (patterns : list Pattern.t) (capec_by_id : gmap string Pattern.t) :
  Forall (fun p => textual_pattern p = true) patterns ->
  index_sound patterns capec_by_id ->
  forall capec_ids acc found,
  exists mapped, map_capec_patterns capec_by_id capec_ids acc found = Ok mapped.
Proof.
  intros Htext Hidx. induction capec_ids as [|k ks IH]; intros acc found; simpl; [eauto|].
  destruct (capec_by_id !! k) as [p|] eqn:Hk; [|apply IH].
  destruct (Hidx k p Hk) as [_ Hin].
  rewrite Forall_forall in Htext. specialize (Htext p (proj2 (list_elem_of_In _ _) Hin)).
  unfold textual_pattern in Htext. apply andb_true_iff in Htext as [_ Hd].
  unfold pattern_summary.
  destruct (Pattern.description p) as [| | |d| |]; try discriminate.
  simpl. apply IH.
Qed.

Lemma mapM_total {A B} (f : A -> result B) (xs : list A) :
  (forall x, In x xs -> exists y, f x = Ok y) ->
  exists ys, mapM f xs = Ok ys /\ Forall2 (fun x y => f x = Ok y) xs ys.
Proof.
  induction xs as [|x xs IH]; intros H; simpl; [eauto|].
  destruct (H x ltac:(now left)) as [y Hy]. rewrite Hy. simpl.
  destruct IH as [ys [Hys Hall]]; [intros z Hz; apply H; now right|].
  rewrite Hys. simpl. eauto.
Qed.

(** On textual inputs the engine returns one entry per category of the
    table, each computed by [map_category] from the same index. *)
Lemma stride_mapping_of_total (self : Updater.t) (techniques : list Technique.t)
    (patterns : list Pattern.t) :
  Forall (fun tech => textual tech = true) techniques ->
  Forall (fun p => textual_pattern p = true) patterns ->
  exists capec_by_id mapping,
    index_patterns ∅ patterns = Ok capec_by_id /\
    stride_mapping_of self techniques patterns = Ok mapping /\
    Forall2 (fun item entry =>
               fst entry = fst item /\
               map_category capec_by_id techniques (fst item) (snd item) = Ok (snd entry))
            (Updater.stride_capec_mappings self) mapping.
Proof.
  intros Htech Hpat.
  destruct (index_patterns_total patterns Hpat ∅) as [idx Hidx].
  assert (Hsound : index_sound patterns idx).
  { apply (index_patterns_sound patterns patterns ∅ idx); auto.
    intros k p Hk. rewrite lookup_empty in Hk. discriminate. }
  unfold stride_mapping_of. rewrite Hidx. simpl.
  destruct (mapM_total
              (fun item => m <- map_category idx techniques (fst item) (snd item) ;; Ok (fst item, m))
              (Updater.stride_capec_mappings self)) as [mapping [Hrun Hall]].
  - intros [category info] _. unfold map_category. simpl.
    destruct (map_capec_patterns_total patterns idx Hpat Hsound
                (MappingInfo.capec_ids info) [] ∅) as [mapped ->].
    simpl. rewrite (map_attack_techniques_filter _ _ Htech). simpl. eauto.
  - exists idx, mapping. split; [reflexivity|]. split; [exact Hrun|].
    eapply Forall2_impl; [exact Hall|]. intros item entry Hentry. simpl in Hentry.
    destruct (map_category idx techniques item.1 item.2) as [m|]; [|discriminate].
    simpl in Hentry. injection Hentry as <-. split; reflexivity.
Qed.

Lemma Forall2_In_r {A B} (R : A -> B -> Prop) (xs : list A) (ys : list B) (y : B) :
  Forall2 R xs ys -> In y ys -> exists x, In x xs /\ R x y.
Proof.
  induction 1 as [|x y' xs ys Hxy _ IH]; intros Hin; [destruct Hin|].
  destruct Hin as [->|Hin]; [exists x; split; [now left|exact Hxy]|].
  destruct (IH Hin) as [x' [Hx' HR]]. exists x'. split; [now right|exact HR].
Qed.

Lemma Forall2_same_keys {A B} (xs : list (string * A)) (ys : list (string * B))
    (R : string * A -> string * B -> Prop) :
  Forall2 (fun x y => fst y = fst x /\ R x y) xs ys -> map fst ys = map fst xs.
Proof.
  induction 1 as [|x y xs ys [Hkey _] _ IH]; simpl; [reflexivity|]. now rewrite Hkey, IH.
Qed.

(** C3, as the code has it. On techniques and patterns whose text fields
    are strings the engine returns one entry per category; the technique
    list of category C is, in traversal order, the summaries of the
    techniques T whose text contains a keyword of C, where the text of T is
    the lowercased string made of the description of T, one space, and the
    name of T. Each category is decided on its own: a technique may match
    none, one, or several. *)
Theorem technique_matching (self : Updater.t) (techniques : list Technique.t)
    (patterns : list Pattern.t) :
  Forall (fun tech => textual tech = true) techniques ->
  Forall (fun p => textual_pattern p = true) patterns ->
  exists mapping,
    stride_mapping_of self techniques patterns = Ok mapping /\
    map fst mapping = map fst (Updater.stride_capec_mappings self) /\
    (forall category m,
        In (category, m) mapping ->
        CategoryMapping.attack_techniques m =
          map technique_summary (List.filter (matched (keywords_of category)) techniques)) /\
    (forall category tech,
        In tech techniques ->
        exists d n,
          Technique.description tech = VStr d /\ Technique.name tech = VStr n /\
          (matched (keywords_of category) tech = true <->
           exists keyword, In keyword (keywords_of category) /\
                           substring_of keyword (Py.lower ((d +:+ " ") +:+ n)))) /\
    categories_matching screen_capture = [] /\
    categories_matching rogue_ap = ["Spoofing"] /\
    categories_matching log_injection = ["Spoofing"; "Tampering"; "Repudiation"].
Proof.
  intros Htech Hpat.
  destruct (stride_mapping_of_total self techniques patterns Htech Hpat)
    as [idx [mapping [_ [Hrun Hall]]]].
  exists mapping. split; [exact Hrun|].
  split; [exact (Forall2_same_keys _ _ _ Hall)|].
  split; [|split; [|repeat split; reflexivity]].
  - intros category m Hin.
    destruct (Forall2_In_r _ _ _ _ Hall Hin) as [item [_ [Hkey Hcat]]].
    simpl in Hkey, Hcat. subst category. unfold map_category in Hcat.
    destruct (map_capec_patterns idx _ [] ∅) as [mapped|]; [|discriminate].
    simpl in Hcat. rewrite (map_attack_techniques_filter _ _ Htech) in Hcat.
    simpl in Hcat. injection Hcat as <-. reflexivity.
  - intros category tech Hin.
    rewrite List.Forall_forall in Htech.
    destruct (textual_desc_lower tech (Htech tech Hin)) as [d [n [Hd [Hn Htext]]]].
    exists d, n. split; [exact Hd|]. split; [exact Hn|].
    unfold matched. rewrite Htext. apply any_keyword_spec.
Qed.

Lemma technique_matching_witness :
  exists mapping,
    stride_mapping_of (init "cybersec_data") [rogue_ap; screen_capture; log_injection]
      [content_spoofing] = Ok mapping /\
    (forall m, In ("Tampering", m) mapping ->
               CategoryMapping.attack_techniques m = [technique_summary log_injection]).
Proof.
  destruct (technique_matching (init "cybersec_data") [rogue_ap; screen_capture; log_injection]
              [content_spoofing]) as [mapping [Hrun [_ [Hlist _]]]].
  - repeat constructor.
  - repeat constructor.
  - exists mapping. split; [exact Hrun|].
    intros m Hin. exact (Hlist "Tampering" m Hin).
Defined.

(** C3, as stated, fails. The name of the technique ends with "fa" and its
    description starts with "ke": the concatenation of name and description
    contains the Spoofing keyword "fake", in either order, but the code tests
    "kefa kefa", and the technique is not in the Spoofing list. *)
Lemma keyword_across_name_and_description :
  Technique.name split_keyword = VStr "kefa" /\
  Technique.description split_keyword = VStr "kefa" /\
  In "fake" (keywords_of "Spoofing") /\
  Py.str_contains "fake" (name_then_description "kefa" "kefa") = true /\
  exists m,
    entry_of "Spoofing" (stride_mapping_of (init "cybersec_data") [split_keyword] []) = Some m /\
    CategoryMapping.attack_techniques m = [] /\
    ~ (In (technique_summary split_keyword) (CategoryMapping.attack_techniques m) <->
       any_keyword (keywords_of "Spoofing") (name_then_description "kefa" "kefa") = true).
Proof.
  split; [reflexivity|]. split; [reflexivity|].
  split; [right; left; reflexivity|]. split; [reflexivity|].
  eexists. split; [vm_compute; reflexivity|]. split; [reflexivity|].
  simpl. intros [_ H]. exact (H eq_refl).
Qed.

(** C8. The mapping is a function of the technique list, the pattern list
    and the curated table of the updater (the keyword table is a constant
    of the code): two invocations that agree on these return the same
    mapping and log the same line, whatever else differs between the two
    updater objects. *)
Theorem correlation_deterministic (self1 self2 : Updater.t)
    (techniques1 techniques2 : list Technique.t) (patterns1 patterns2 : list Pattern.t) :
  Updater.stride_capec_mappings self1 = Updater.stride_capec_mappings self2 ->
  techniques1 = techniques2 ->
  patterns1 = patterns2 ->
  create_stride_mapping_with_real_data self1 techniques1 patterns1 =
  create_stride_mapping_with_real_data self2 techniques2 patterns2.
Proof.
  intros Htable -> ->.
  unfold create_stride_mapping_with_real_data, stride_mapping_of.
  rewrite Htable. reflexivity.
Qed.

Lemma correlation_deterministic_witness :
  create_stride_mapping_with_real_data (init "first_run") [rogue_ap] [content_spoofing] =
  create_stride_mapping_with_real_data (init "second_run") [rogue_ap] [content_spoofing].
Proof.
  apply correlation_deterministic; reflexivity.
Defined.

(** ** Fetching with a source down *)


Lemma assoc_setitem_eq {A} (k : string) (v : A) (d : list (string * A)) :
  Py.assoc k (Py.setitem k v d) = Some v.
Proof.
  induction d as [|[k' v'] d IH]; simpl.
  - now rewrite String.eqb_refl.
  - destruct (String.eqb k k') eqn:Hk; simpl; [now rewrite String.eqb_refl|now rewrite Hk].
Qed.

Lemma assoc_setitem_ne {A} (k k' : string) (v : A) (d : list (string * A)) :
  k <> k' -> Py.assoc k (Py.setitem k' v d) = Py.assoc k d.
Proof.
  intros Hne. apply String.eqb_neq in Hne.
  induction d as [|[k0 v0] d IH]; simpl.
  - now rewrite Hne.
  - destruct (String.eqb k' k0) eqn:Hk0; simpl.
    + apply String.eqb_eq in Hk0 as <-. now rewrite Hne.
    + now rewrite IH.
Qed.



Section FetchFacts.
Variable self : Updater.t.
Variable w : World.



Lemma fetch_attack_data_domains :
  fst (fetch_attack_data self w) = fst (fetch_attack_domains self w (Updater.sources self) []).
Proof.
  unfold fetch_attack_data.
  now destruct (fetch_attack_domains self w (Updater.sources self) []).
Qed.



End FetchFacts.

(** ** The run *)

Ltac invert_binds H :=
  repeat match type of H with
         | rbind ?c _ = Ok _ =>
             let E := fresh "E" in destruct c eqn:E; [simpl in H|discriminate H]
         end.







Lemma mapM_In {A B} (f : A -> result B) (xs : list A) (ys : list B) (y : B) :
  mapM f xs = Ok ys -> In y ys -> exists x, In x xs /\ f x = Ok y.
Proof.
  revert ys. induction xs as [|x xs IH]; intros ys Hrun Hin; simpl in Hrun.
  - injection Hrun as <-. destruct Hin.
  - invert_binds Hrun. injection Hrun as <-. destruct Hin as [<-|Hin].
    + exists x. split; [now left|assumption].
    + destruct (IH _ eq_refl Hin) as [x' [Hx' Hf]]. exists x'. split; [now right|exact Hf].
Qed.



(** What a run returns: the documents fetched are normalised and
    correlated, and the consolidated document is returned once it is
    written. *)
Lemma generate_consolidated_mapping_result (self : Updater.t) (w : World) :
  fst (generate_consolidated_mapping self w) =
    (techniques <- parse_attack_techniques (fst (fetch_attack_data self w)) ;;
     mitigations <- parse_attack_mitigations (fst (fetch_attack_data self w)) ;;
     capec_patterns <- parse_capec_patterns (fst (fetch_capec_data self w)) ;;
     stride_mapping <- stride_mapping_of self techniques capec_patterns ;;
     if writable w (Updater.output_dir self +:+ "/consolidated_mapping.json")
     then match dump_error w (Updater.output_dir self +:+ "/consolidated_mapping.json") with
          | None => Ok (consolidated_of self (now w) techniques mitigations capec_patterns
                          (fst (fetch_d3fend_data self w)) stride_mapping)
          | Some e => Raise e
          end
     else Raise (OSError (Updater.output_dir self +:+ "/consolidated_mapping.json"))).
Proof.
  unfold generate_consolidated_mapping, ebind, total, pure,
    create_stride_mapping_with_real_data, save.
  destruct (fetch_attack_data self w) as [attack_data tr1].
  destruct (fetch_capec_data self w) as [capec_data tr2].
  destruct (fetch_d3fend_data self w) as [d3fend_data tr3]. simpl.
  destruct (parse_attack_techniques attack_data) as [techniques|]; [simpl|reflexivity].
  destruct (parse_attack_mitigations attack_data) as [mitigations|]; [simpl|reflexivity].
  destruct (parse_capec_patterns capec_data) as [patterns|]; [simpl|reflexivity].
  destruct (stride_mapping_of self techniques patterns) as [mapping|]; [simpl|reflexivity].
  destruct (writable w _); [|reflexivity]. destruct (dump_error w _); reflexivity.
Qed.








(** C10. In the document a run returns, each of the three samples is the
    prefix of its normalised list, of length min(10, length of the list);
    the lists themselves are what the counts of the metadata and the
    correlation are computed from. *)
Theorem samples_are_prefixes (self : Updater.t) (w : World) (doc : Consolidated.t) :
  fst (generate_consolidated_mapping self w) = Ok doc ->
  exists techniques mitigations patterns,
    parse_attack_techniques (fst (fetch_attack_data self w)) = Ok techniques /\
    parse_attack_mitigations (fst (fetch_attack_data self w)) = Ok mitigations /\
    parse_capec_patterns (fst (fetch_capec_data self w)) = Ok patterns /\
    let sample := Consolidated.sample_data doc in
    let counts := Metadata.data_sources (Consolidated.metadata doc) in
    (SampleData.attack_techniques sample = take 10 techniques /\
     length (SampleData.attack_techniques sample) = Nat.min 10 (length techniques) /\
     techniques = SampleData.attack_techniques sample ++ drop 10 techniques) /\
    (SampleData.attack_mitigations sample = take 10 mitigations /\
     length (SampleData.attack_mitigations sample) = Nat.min 10 (length mitigations) /\
     mitigations = SampleData.attack_mitigations sample ++ drop 10 mitigations) /\
    (SampleData.capec_patterns sample = take 10 patterns /\
     length (SampleData.capec_patterns sample) = Nat.min 10 (length patterns) /\
     patterns = SampleData.capec_patterns sample ++ drop 10 patterns) /\
    (DataSources.attack_techniques_count counts = length techniques /\
     DataSources.attack_mitigations_count counts = length mitigations /\
     DataSources.capec_patterns_count counts = length patterns) /\
    stride_mapping_of self techniques patterns = Ok (Consolidated.stride_mapping doc).
Proof.
  rewrite generate_consolidated_mapping_result. intros Hrun.
  destruct (parse_attack_techniques _) as [techniques|]; [simpl in Hrun|discriminate].
  destruct (parse_attack_mitigations _) as [mitigations|]; [simpl in Hrun|discriminate].
  destruct (parse_capec_patterns _) as [patterns|]; [simpl in Hrun|discriminate].
  destruct (stride_mapping_of self techniques patterns) as [mapping|] eqn:Hmap;
    [simpl in Hrun|discriminate].
  destruct (writable w _); [|discriminate].
  destruct (dump_error w _); [discriminate|]. injection Hrun as <-.
  exists techniques, mitigations, patterns.
  split; [reflexivity|]. split; [reflexivity|]. split; [reflexivity|]. simpl.
  repeat split; auto using length_take, take_drop.
  all: now rewrite take_drop.
Qed.

Lemma samples_are_prefixes_witness :
  exists doc,
    fst (generate_consolidated_mapping (init "cybersec_data") busy_world) = Ok doc /\
    length (SampleData.attack_techniques (Consolidated.sample_data doc)) = 10%nat /\
    length (SampleData.attack_mitigations (Consolidated.sample_data doc)) = 3%nat /\
    DataSources.attack_techniques_count (Metadata.data_sources (Consolidated.metadata doc))
      = 36%nat.
Proof.
  destruct (fst (generate_consolidated_mapping (init "cybersec_data") busy_world))
    as [doc|e] eqn:Hrun; [|vm_compute in Hrun; discriminate Hrun].
  exists doc. split; [reflexivity|].
  destruct (samples_are_prefixes _ _ _ Hrun)
    as [techniques [mitigations [patterns [HT [HM [_ Hdoc]]]]]].
  cbv zeta in Hdoc.
  destruct Hdoc as [[_ [HlenT _]] [[_ [HlenM _]] [_ [[HcountT _] _]]]].
  vm_compute in HT. injection HT as <-.
  vm_compute in HM. injection HM as <-.
  rewrite HlenT, HlenM, HcountT. repeat split.
Defined.

(** * Further properties *)

(** ** Fetcher: budget and outcome *)

Lemma requests_app (tr1 tr2 : list event) :
  requests (tr1 ++ tr2) = (requests tr1 + requests tr2)%nat.
Proof.
  induction tr1 as [|ev tr1 IH]; simpl; [reflexivity|].
  destruct ev; simpl; rewrite IH; reflexivity.
Qed.

Lemma slept_app (tr1 tr2 : list event) : slept (tr1 ++ tr2) = slept tr1 + slept tr2.
Proof.
  induction tr1 as [|ev tr1 IH]; simpl; [reflexivity|].
  destruct ev; simpl; rewrite IH; lia.
Qed.

Lemma written_app (tr1 tr2 : list event) : written (tr1 ++ tr2) = written tr1 ++ written tr2.
Proof.
  induction tr1 as [|ev tr1 IH]; simpl; [reflexivity|].
  destruct ev; simpl; rewrite IH; reflexivity.
Qed.

Lemma retry_loop_budget (w : World) (url : string) (n : Z) :
  forall fuel a,
    let tr := snd (retry_loop w url n fuel a) in
    (requests tr <= fuel)%nat /\
    (0 <= slept tr <= 2 ^ Z.max (Z.of_nat a) (n - 1) - 2 ^ Z.of_nat a) /\
    written tr = [] /\
    (forall u, In (Get u) tr -> u = url).
Proof.
  induction fuel as [|fuel IH]; intros a; cbn zeta;
    assert (Hpow : 2 ^ Z.of_nat a <= 2 ^ Z.max (Z.of_nat a) (n - 1))
      by (apply Z.pow_le_mono_r; lia).
  - simpl. split; [lia|]. split; [lia|]. split; [reflexivity|]. intros u [].
  - destruct (net w url a) as [doc|msg] eqn:Hnet.
    + rewrite (retry_loop_parsed _ _ _ _ _ _ Hnet). simpl.
      split; [lia|]. split; [lia|]. split; [reflexivity|].
      intros u [H|[H|[]]]; now inversion H.
    + destruct (Z.lt_ge_cases (Z.of_nat a) (n - 1)) as [Hlt|Hge].
      * rewrite (retry_loop_retry _ _ _ _ _ _ Hnet Hlt). cbn [snd].
        destruct (IH (S a)) as [Hreq [Hsleep [Hwr Hget]]].
        rewrite requests_app, slept_app, written_app. simpl.
        rewrite Hwr.
        replace (Z.max (Z.of_nat (S a)) (n - 1)) with (n - 1) in Hsleep by lia.
        replace (Z.max (Z.of_nat a) (n - 1)) with (n - 1) by lia.
        replace (Z.of_nat (S a)) with (Z.succ (Z.of_nat a)) in Hsleep by lia.
        rewrite Z.pow_succ_r in Hsleep by lia.
        split; [lia|]. split; [lia|]. split; [reflexivity|].
        intros u [H|[H|[H|[H|H]]]]; try (now inversion H); now apply Hget.
      * rewrite (retry_loop_give_up _ _ _ _ _ _ Hnet Hge). simpl.
        split; [lia|]. split; [lia|]. split; [reflexivity|].
        intros u [H|[H|[H|[H|[]]]]]; now inversion H.
Qed.

(** X1. Whatever the endpoint answers, a download makes at most
    [max_retries] requests, all to its URL, sleeps less than
    [2^(max_retries - 1)] seconds in total, and writes no file. *)
Theorem download_with_retry_budget (w : World) (url : string) (max_retries : Z) :
  let tr := snd (download_with_retry w url max_retries) in
  (requests tr <= Z.to_nat max_retries)%nat /\
  0 <= slept tr < 2 ^ Z.max 0 (max_retries - 1) /\
  written tr = [] /\
  (forall u, In (Get u) tr -> u = url).
Proof.
  cbn zeta. unfold download_with_retry.
  destruct (retry_loop_budget w url max_retries (Z.to_nat max_retries) 0%nat)
    as [Hreq [Hsleep [Hwr Hget]]].
  simpl in Hsleep. split; [exact Hreq|]. split; [lia|]. split; [exact Hwr|exact Hget].
Qed.

Lemma retry_loop_outcome (w : World) (url : string) (n : Z) :
  forall fuel a,
    Z.of_nat (a + S fuel) = n ->
    match fst (retry_loop w url n (S fuel) a) with
    | Ok doc =>
        exists k, (k <= fuel)%nat /\ net w url (a + k) = Parsed doc /\
                  forall i, (i < k)%nat -> attempt_fails w url (a + i)
    | Raise e =>
        (forall i, (i <= fuel)%nat -> attempt_fails w url (a + i)) /\
        exists msg, net w url (a + fuel) = Failed msg /\ e = RequestException msg
    end.
Proof.
  induction fuel as [|fuel IH]; intros a Hn.
  - destruct (net w url a) as [doc|msg] eqn:Hnet.
    + rewrite (retry_loop_parsed _ _ _ _ _ _ Hnet). simpl.
      exists 0%nat. replace (a + 0)%nat with a by lia. split; [lia|]. split; [exact Hnet|].
      intros i Hi. lia.
    + rewrite (retry_loop_give_up _ _ _ _ _ _ Hnet) by lia. simpl.
      replace (a + 0)%nat with a by lia. split; [|eauto].
      intros i Hi. replace i with 0%nat by lia. replace (a + 0)%nat with a by lia.
      now exists msg.
  - destruct (net w url a) as [doc|msg] eqn:Hnet.
    + rewrite (retry_loop_parsed _ _ _ _ _ _ Hnet). simpl.
      exists 0%nat. replace (a + 0)%nat with a by lia. split; [lia|]. split; [exact Hnet|].
      intros i Hi. lia.
    + rewrite (retry_loop_retry _ _ _ _ _ _ Hnet) by lia. cbn [fst].
      specialize (IH (S a) ltac:(lia)).
      destruct (fst (retry_loop w url n (S fuel) (S a))) as [doc|e].
      * destruct IH as [k [Hk [Hdoc Hfail]]]. exists (S k).
        replace (a + S k)%nat with (S a + k)%nat by lia. split; [lia|]. split; [exact Hdoc|].
        intros [|i] Hi.
        -- replace (a + 0)%nat with a by lia. now exists msg.
        -- replace (a + S i)%nat with (S a + i)%nat by lia. apply Hfail. lia.
      * destruct IH as [Hfail Hlast].
        replace (a + S fuel)%nat with (S a + fuel)%nat by lia. split; [|exact Hlast].
        intros [|i] Hi.
        -- replace (a + 0)%nat with a by lia. now exists msg.
        -- replace (a + S i)%nat with (S a + i)%nat by lia. apply Hfail. lia.
Qed.

(** X2. With at least one attempt allowed, a download returns only what
    the endpoint served: the document of the first attempt that did not
    fail; and it raises only when every allowed attempt failed, with the
    error of the last one. *)
Theorem download_with_retry_outcome (w : World) (url : string) (max_retries : Z) :
  1 <= max_retries ->
  match fst (download_with_retry w url max_retries) with
  | Ok doc =>
      exists k, Z.of_nat k < max_retries /\ net w url k = Parsed doc /\
                forall i, (i < k)%nat -> attempt_fails w url i
  | Raise e =>
      (forall i, Z.of_nat i < max_retries -> attempt_fails w url i) /\
      exists msg, net w url (Z.to_nat (max_retries - 1)) = Failed msg /\
                  e = RequestException msg
  end.
Proof.
  intros Hn. unfold download_with_retry.
  replace (Z.to_nat max_retries) with (S (Z.to_nat (max_retries - 1))) by lia.
  pose proof (retry_loop_outcome w url max_retries (Z.to_nat (max_retries - 1)) 0%nat
                ltac:(lia)) as H.
  destruct (fst (retry_loop w url max_retries (S (Z.to_nat (max_retries - 1))) 0)) as [doc|e].
  - destruct H as [k [Hk [Hdoc Hfail]]]. exists k. simpl in *. split; [lia|]. auto.
  - destruct H as [Hfail Hlast]. simpl in *. split; [|exact Hlast].
    intros i Hi. apply Hfail. lia.
Qed.

Lemma download_with_retry_outcome_witness :
  exists k, Z.of_nat k < 3 /\
            net flaky_world "https://example.org/doc.json" k = Parsed empty_bundle /\
            forall i, (i < k)%nat -> attempt_fails flaky_world "https://example.org/doc.json" i.
Proof.
  exact (download_with_retry_outcome flaky_world "https://example.org/doc.json" 3 ltac:(lia)).
Defined.

(** ** Fetching: where the documents come from, what a run may do *)

Lemma within_nil : within 0 0 [] [].
Proof. split; [simpl; lia|]. split; [simpl; lia|]. intros path []. Qed.

Lemma within_app (r1 r2 : nat) (s1 s2 : Z) (f1 f2 : list string) (tr1 tr2 : list event) :
  within r1 s1 f1 tr1 -> within r2 s2 f2 tr2 ->
  within (r1 + r2) (s1 + s2) (f1 ++ f2) (tr1 ++ tr2).
Proof.
  intros [Hr1 [Hs1 Hf1]] [Hr2 [Hs2 Hf2]]. unfold within.
  rewrite requests_app, slept_app, written_app. split; [lia|]. split; [lia|].
  intros path Hin. apply in_or_app. apply in_app_or in Hin as [Hin|Hin]; auto.
Qed.

Lemma within_weaken (r r' : nat) (s s' : Z) (f f' : list string) (tr : list event) :
  within r s f tr -> (r <= r')%nat -> s <= s' -> (forall path, In path f -> In path f') ->
  within r' s' f' tr.
Proof.
  intros [Hr [Hs Hf]] Hr' Hs' Hf'. split; [lia|]. split; [lia|]. auto.
Qed.

Lemma within_quiet (tr : list event) :
  requests tr = 0%nat -> slept tr = 0 -> within 0 0 (written tr) tr.
Proof. intros Hr Hs. unfold within. rewrite Hr, Hs. split; [lia|]. split; [lia|]. auto. Qed.

Lemma download_within (w : World) (url : string) :
  within 3 3 [] (snd (download_with_retry w url 3)).
Proof.
  destruct (download_with_retry_budget w url 3) as [Hreq [Hsleep [Hwr _]]].
  change (2 ^ Z.max 0 (3 - 1)) with 4 in Hsleep. change (Z.to_nat 3) with 3%nat in Hreq.
  unfold within. rewrite Hwr. split; [exact Hreq|]. split; [lia|].
  intros path [].
Qed.

Section FetchTraces.
Variable self : Updater.t.
Variable w : World.

Lemma save_within (filename saved : string) :
  within 0 0 [filename] (snd (save w filename saved)).
Proof.
  unfold save. destruct (writable w filename); [destruct (dump_error w filename)|]; simpl.
  - split; [simpl; lia|]. split; [simpl; lia|]. intros path [<-|[]]. now left.
  - split; [simpl; lia|]. split; [simpl; lia|]. intros path [<-|[]]. now left.
  - split; [simpl; lia|]. split; [simpl; lia|]. intros path [].
Qed.

Lemma fetch_attack_domains_within :
  forall sources acc,
    within (3 * length (List.filter (fun s => Py.str_contains "attack" (fst s)) sources))
           (3 * Z.of_nat (length (List.filter (fun s => Py.str_contains "attack" (fst s)) sources)))
           (map (fun s => Updater.output_dir self +:+ "/" +:+ fst s +:+ "_raw.json")
                (List.filter (fun s => Py.str_contains "attack" (fst s)) sources))
           (snd (fetch_attack_domains self w sources acc)).
Proof.
  induction sources as [|[domain url] sources IH]; intros acc; [apply within_nil|].
  simpl. destruct (Py.str_contains "attack" domain); [|apply IH].
  pose proof (download_within w url) as Hdl.
  destruct (download_with_retry w url 3) as [[data|e] tr]; simpl in Hdl.
  - pose proof (save_within (Updater.output_dir self +:+ "/" +:+ domain +:+ "_raw.json")
                  "Data saved: ") as Hsave.
    specialize (IH (Py.setitem domain data acc)).
    destruct (fetch_attack_domains self w sources (Py.setitem domain data acc))
      as [final rest]. simpl in IH. cbn [snd].
    assert (Hstep : within 0 0
              [Updater.output_dir self +:+ "/" +:+ domain +:+ "_raw.json"]
              match save w (Updater.output_dir self +:+ "/" +:+ domain +:+ "_raw.json")
                      "Data saved: " with
              | (Ok _, trs) => trs
              | (Raise e, trs) => trs ++ [LogExn ERROR ("Error for " +:+ domain +:+ ": ") e]
              end).
    { destruct (save w _ _) as [[u|e] trs]; simpl in Hsave; [exact Hsave|].
      pose proof (within_app _ _ _ _ _ _ _ _ Hsave
                    (within_quiet [LogExn ERROR ("Error for " +:+ domain +:+ ": ") e]
                       eq_refl eq_refl)) as H.
      eapply within_weaken; [exact H|lia|lia|].
      intros path Hin. exact Hin. }
    pose proof (within_app _ _ _ _ _ _ _ _ Hdl (within_app _ _ _ _ _ _ _ _ Hstep IH)) as H.
    eapply within_weaken; [exact H|simpl; lia|simpl length; lia|].
    intros path Hin. exact Hin.
  - specialize (IH acc).
    destruct (fetch_attack_domains self w sources acc) as [final rest]. simpl in IH. cbn [snd].
    pose proof (within_app _ _ _ _ _ _ _ _ Hdl
                  (within_app _ _ _ _ _ _ _ _
                     (within_quiet [LogExn ERROR ("Error for " +:+ domain +:+ ": ") e]
                        eq_refl eq_refl) IH)) as H.
    eapply within_weaken; [exact H|simpl; lia|simpl length; lia|].
    intros path Hin. right. exact Hin.
Qed.

Lemma fetch_attack_data_within :
  within (3 * length (attack_sources self)) (3 * Z.of_nat (length (attack_sources self)))
         (map (fun s => Updater.output_dir self +:+ "/" +:+ fst s +:+ "_raw.json")
              (attack_sources self))
         (snd (fetch_attack_data self w)).
Proof.
  unfold fetch_attack_data.
  pose proof (fetch_attack_domains_within (Updater.sources self) []) as H.
  destruct (fetch_attack_domains self w (Updater.sources self) []) as [ad tr]. exact H.
Qed.

Lemma fetch_single_within (source filename saved failure : string) (lv : level) :
  within 3 3 [filename] (snd (fetch_single self w source filename saved lv failure)).
Proof.
  unfold fetch_single. destruct (Py.assoc source (Updater.sources self)) as [url|].
  - pose proof (download_within w url) as Hdl.
    destruct (download_with_retry w url 3) as [[data|e] tr]; simpl in Hdl.
    + pose proof (save_within filename saved) as Hsave.
      destruct (save w filename saved) as [[u|e] trs]; simpl in Hsave; cbn [snd].
      * pose proof (within_app _ _ _ _ _ _ _ _ Hdl Hsave) as H.
        eapply within_weaken; [exact H|lia|lia|auto].
      * pose proof (within_app _ _ _ _ _ _ _ _ Hdl
                      (within_app _ _ _ _ _ _ _ _ Hsave
                         (within_quiet [LogExn lv failure e] eq_refl eq_refl))) as H.
        eapply within_weaken; [exact H|lia|lia|].
        intros path Hin. exact Hin.
    + cbn [snd].
      pose proof (within_app _ _ _ _ _ _ _ _ Hdl
                    (within_quiet [LogExn lv failure e] eq_refl eq_refl)) as H.
      eapply within_weaken; [exact H|lia|lia|]. intros path [].
  - cbn [snd]. split; [simpl; lia|]. split; [simpl; lia|]. intros path [].
Qed.

Lemma fetch_capec_data_within :
  within 3 3 [Updater.output_dir self +:+ "/capec_raw.json"] (snd (fetch_capec_data self w)).
Proof.
  unfold fetch_capec_data.
  pose proof (fetch_single_within "capec_stix" (Updater.output_dir self +:+ "/capec_raw.json")
                "CAPEC data saved: " "CAPEC error: " ERROR) as H.
  destruct (fetch_single _ _ _ _ _ _ _) as [d tr]. exact H.
Qed.

Lemma fetch_d3fend_data_within :
  within 3 3 [Updater.output_dir self +:+ "/d3fend_raw.json"] (snd (fetch_d3fend_data self w)).
Proof.
  unfold fetch_d3fend_data.
  pose proof (fetch_single_within "d3fend_base" (Updater.output_dir self +:+ "/d3fend_raw.json")
                "D3FEND data saved: " "D3FEND not available via API: " WARNING) as H.
  destruct (fetch_single _ _ _ _ _ _ _) as [d tr]. exact H.
Qed.

(** The three fetches of a run, one after the other. *)
Lemma fetches_within :
  within (3 * (length (attack_sources self) + 2))
         (3 * (Z.of_nat (length (attack_sources self)) + 2))
         (snapshot_files self)
         (snd (fetch_attack_data self w) ++ snd (fetch_capec_data self w)
            ++ snd (fetch_d3fend_data self w)).
Proof.
  pose proof (within_app _ _ _ _ _ _ _ _ fetch_attack_data_within
                (within_app _ _ _ _ _ _ _ _ fetch_capec_data_within fetch_d3fend_data_within))
    as H.
  eapply within_weaken; [exact H|lia|lia|]. unfold snapshot_files. auto.
Qed.

End FetchTraces.

Lemma fetch_attack_domains_origin (self : Updater.t) (w : World) (k : string) (doc : value) :
  forall sources acc,
    Py.assoc k (fst (fetch_attack_domains self w sources acc)) = Some doc ->
    Py.assoc k acc = Some doc \/
    exists url tr, In (k, url) sources /\ Py.str_contains "attack" k = true /\
                   download_with_retry w url 3 = (Ok doc, tr).
Proof.
  induction sources as [|[domain url] sources IH]; intros acc Hk; [now left|].
  simpl in Hk. destruct (Py.str_contains "attack" domain) eqn:Hattack.
  - destruct (download_with_retry w url 3) as [[data|e] tr] eqn:Hrun.
    + destruct (fetch_attack_domains self w sources (Py.setitem domain data acc))
        as [final rest] eqn:Hrest. simpl in Hk.
      change final with (fst (final, rest)) in Hk. rewrite <- Hrest in Hk.
      destruct (IH _ Hk) as [Hacc|[u [tr' [Hin [Ha Hdl]]]]].
      * destruct (String.eqb_spec k domain) as [->|Hne].
        -- rewrite assoc_setitem_eq in Hacc. injection Hacc as ->.
           right. exists url, tr. split; [now left|]. split; [exact Hattack|exact Hrun].
        -- rewrite assoc_setitem_ne in Hacc by exact Hne. now left.
      * right. exists u, tr'. split; [now right|]. split; assumption.
    + destruct (fetch_attack_domains self w sources acc) as [final rest] eqn:Hrest.
      simpl in Hk. change final with (fst (final, rest)) in Hk. rewrite <- Hrest in Hk.
      destruct (IH _ Hk) as [Hacc|[u [tr' [Hin [Ha Hdl]]]]]; [now left|].
      right. exists u, tr'. split; [now right|]. split; assumption.
  - destruct (IH _ Hk) as [Hacc|[u [tr' [Hin [Ha Hdl]]]]]; [now left|].
    right. exists u, tr'. split; [now right|]. split; assumption.
Qed.

(** X3. Every document [fetch_attack_data] returns is stored under the
    name of a configured source whose name contains "attack", and is the
    document the download of that source's URL returned: CAPEC and D3FEND
    never appear among the ATT&CK data. *)
Theorem fetch_attack_data_origin (self : Updater.t) (w : World) (domain : string) (doc : value) :
  Py.assoc domain (fst (fetch_attack_data self w)) = Some doc ->
  exists url tr,
    In (domain, url) (Updater.sources self) /\
    Py.str_contains "attack" domain = true /\
    download_with_retry w url 3 = (Ok doc, tr).
Proof.
  rewrite fetch_attack_data_domains. intros H.
  destruct (fetch_attack_domains_origin self w domain doc _ _ H) as [Hnil|Hsrc];
    [discriminate Hnil|exact Hsrc].
Qed.

Lemma fetch_attack_data_origin_witness :
  exists url tr,
    In ("attack_mobile", url) default_sources /\
    Py.str_contains "attack" "attack_mobile" = true /\
    download_with_retry busy_world url 3 = (Ok (large_bundle 12), tr).
Proof.
  apply (fetch_attack_data_origin (init "cybersec_data") busy_world "attack_mobile").
  vm_compute. reflexivity.
Defined.



Lemma append_inj_l (prefix a b : string) : prefix +:+ a = prefix +:+ b -> a = b.
Proof.
  induction prefix as [|c prefix IH]; simpl; [auto|]. intros H. injection H as H. auto.
Qed.

Lemma raw_is_not_consolidated (domain : string) :
  "/" +:+ domain +:+ "_raw.json" <> "/consolidated_mapping.json".
Proof.
  simpl. intros H. injection H as H.
  repeat (destruct domain as [|? domain]; simpl in H; [discriminate H|injection H as _ H]).
  destruct domain; discriminate H.
Qed.

Lemma consolidated_file_not_snapshot (self : Updater.t) :
  ~ In (consolidated_file self) (snapshot_files self).
Proof.
  unfold consolidated_file, snapshot_files. intros Hin.
  apply in_app_or in Hin as [Hin|[Hin|[Hin|[]]]].
  - apply in_map_iff in Hin as [[domain url] [Heq _]]. simpl in Heq.
    apply append_inj_l in Heq. now apply raw_is_not_consolidated in Heq.
  - apply append_inj_l in Hin. discriminate Hin.
  - apply append_inj_l in Hin. discriminate Hin.
Qed.

Ltac close_trace tail :=
  exists tail; split; [simpl; rewrite <- ?app_assoc; reflexivity|simpl; eauto 10].

Lemma saved_app (tr1 tr2 : list event) : saved (tr1 ++ tr2) = saved tr1 ++ saved tr2.
Proof.
  induction tr1 as [|ev tr1 IH]; simpl; [reflexivity|].
  destruct ev; simpl; rewrite IH; reflexivity.
Qed.

Lemma saved_written (tr : list event) (path : string) :
  In path (saved tr) -> In path (written tr).
Proof.
  induction tr as [|ev tr IH]; simpl; [auto|].
  destruct ev; simpl; auto. intros [H|H]; auto.
Qed.

(** The trace of a run: the fetches, then a tail without requests or
    sleeps. The tail saves the consolidated file when the run returns; it
    leaves the file partly written when the dump into it raises; otherwise
    it does not touch it. *)
Lemma generate_consolidated_mapping_trace (self : Updater.t) (w : World) :
  exists tail,
    snd (generate_consolidated_mapping self w) =
      Log INFO "Generating consolidated mapping..."
        :: (snd (fetch_attack_data self w) ++ snd (fetch_capec_data self w)
              ++ snd (fetch_d3fend_data self w)) ++ tail /\
    requests tail = 0%nat /\ slept tail = 0 /\
    ((saved tail = [consolidated_file self] /\ written tail = [consolidated_file self] /\
      exists doc, fst (generate_consolidated_mapping self w) = Ok doc) \/
     (saved tail = [] /\ written tail = [] /\
      exists e, fst (generate_consolidated_mapping self w) = Raise e) \/
     (saved tail = [] /\ written tail = [consolidated_file self] /\
      exists e, fst (generate_consolidated_mapping self w) = Raise e /\
                writable w (consolidated_file self) = true /\
                dump_error w (consolidated_file self) = Some e)).
Proof.
  unfold generate_consolidated_mapping, ebind, total, pure,
    create_stride_mapping_with_real_data, save, consolidated_file.
  destruct (fetch_attack_data self w) as [attack_data tr1].
  destruct (fetch_capec_data self w) as [capec_data tr2].
  destruct (fetch_d3fend_data self w) as [d3fend_data tr3]. cbn [fst snd].
  destruct (parse_attack_techniques attack_data) as [techniques|e]; cbn [fst snd];
    [|close_trace (@nil event)].
  destruct (parse_attack_mitigations attack_data) as [mitigations|e]; cbn [fst snd];
    [|close_trace (@nil event)].
  destruct (parse_capec_patterns capec_data) as [patterns|e]; cbn [fst snd];
    [|close_trace (@nil event)].
  destruct (stride_mapping_of self techniques patterns) as [mapping|e]; cbn [fst snd];
    [|close_trace [Log INFO "Creating STRIDE mapping with official data..."]].
  destruct (writable w _) eqn:Hw; cbn [fst snd];
    [destruct (dump_error w _) as [e|] eqn:Hdump; cbn [fst snd]|].
  - exists [Log INFO "Creating STRIDE mapping with official data...";
            Partial (Updater.output_dir self +:+ "/consolidated_mapping.json")].
    split; [simpl; rewrite <- ?app_assoc; reflexivity|]. simpl.
    split; [reflexivity|]. split; [reflexivity|]. right. right. eauto 10.
  - close_trace [Log INFO "Creating STRIDE mapping with official data...";
                 Write (Updater.output_dir self +:+ "/consolidated_mapping.json");
                 Log INFO ("Consolidated mapping saved: "
                             +:+ (Updater.output_dir self +:+ "/consolidated_mapping.json"))].
  - close_trace [Log INFO "Creating STRIDE mapping with official data..."].
Qed.

(** X5. A run makes at most three requests per configured source
    (the ATT&CK sources, CAPEC and D3FEND), sleeps at most three seconds per
    source, and writes no file other than the snapshots and the
    consolidated file - fifteen requests and fifteen seconds with the five
    sources of the program. *)
Theorem run_budget (self : Updater.t) (w : World) :
  within (3 * (length (attack_sources self) + 2))
         (3 * (Z.of_nat (length (attack_sources self)) + 2))
         (snapshot_files self ++ [consolidated_file self])
         (snd (generate_consolidated_mapping self w)) /\
  (forall dir, within 15 15 (snapshot_files (init dir) ++ [consolidated_file (init dir)])
                      (snd (generate_consolidated_mapping (init dir) w))).
Proof.
  assert (Hgen : forall self',
             within (3 * (length (attack_sources self') + 2))
               (3 * (Z.of_nat (length (attack_sources self')) + 2))
               (snapshot_files self' ++ [consolidated_file self'])
               (snd (generate_consolidated_mapping self' w))).
  { intros self'.
    destruct (generate_consolidated_mapping_trace self' w) as [tail [-> [Hr [Hs Hw]]]].
    destruct (fetches_within self' w) as [Hfr [Hfs Hfw]].
    unfold within. cbn [requests slept written].
    rewrite requests_app, slept_app, written_app, Hr, Hs.
    split; [lia|]. split; [lia|].
    intros path Hin. apply in_or_app. apply in_app_or in Hin as [Hin|Hin]; [left; auto|].
    right. destruct Hw as [[_ [Hw _]]|[[_ [Hw _]]|[_ [Hw _]]]]; rewrite Hw in Hin;
      [exact Hin|destruct Hin|exact Hin]. }
  split; [apply Hgen|]. intros dir. exact (Hgen (init dir)).
Qed.

(** X6. The consolidated file is saved in full exactly when the run
    returns a document. A run that raises leaves the consolidated file
    untouched, unless what raised is the dump into it: only then is the
    file left created and partly written. *)
Theorem consolidated_file_saved_iff (self : Updater.t) (w : World) :
  (In (consolidated_file self) (saved (snd (generate_consolidated_mapping self w))) <->
   exists doc, fst (generate_consolidated_mapping self w) = Ok doc) /\
  (forall e,
      fst (generate_consolidated_mapping self w) = Raise e ->
      In (consolidated_file self) (written (snd (generate_consolidated_mapping self w))) ->
      writable w (consolidated_file self) = true /\
      dump_error w (consolidated_file self) = Some e).
Proof.
  destruct (generate_consolidated_mapping_trace self w) as [tail [Htr [_ [_ Hw]]]].
  rewrite Htr. cbn [saved written]. rewrite saved_app, written_app.
  destruct (fetches_within self w) as [_ [_ Hfw]].
  split; [split|].
  - intros Hin. apply in_app_or in Hin as [Hin|Hin].
    + exfalso. exact (consolidated_file_not_snapshot self (Hfw _ (saved_written _ _ Hin))).
    + destruct Hw as [[_ [_ Hok]]|[[Hnone _]|[Hnone _]]]; [exact Hok| |];
        rewrite Hnone in Hin; destruct Hin.
  - intros [doc Hdoc]. apply in_or_app. right.
    destruct Hw as [[Hsaved _]|[[_ [_ [e He]]]|[_ [_ [e [He _]]]]]];
      [rewrite Hsaved; now left|congruence|congruence].
  - intros e He Hin. apply in_app_or in Hin as [Hin|Hin].
    + exfalso. exact (consolidated_file_not_snapshot self (Hfw _ Hin)).
    + destruct Hw as [[_ [_ [doc Hdoc]]]|[[_ [Hnone _]]|[_ [_ [e' [He' Hdump]]]]]].
      * congruence.
      * rewrite Hnone in Hin. destruct Hin.
      * rewrite He in He'. injection He' as ->. exact Hdump.
Qed.

Lemma consolidated_file_saved_iff_witness :
  ~ In (consolidated_file (init "cybersec_data"))
       (saved (snd (generate_consolidated_mapping (init "cybersec_data") full_disk_world))) /\
  In (consolidated_file (init "cybersec_data"))
     (written (snd (generate_consolidated_mapping (init "cybersec_data") full_disk_world))) /\
  dump_error full_disk_world (consolidated_file (init "cybersec_data"))
    = Some (OSError "No space left on device").
Proof.
  destruct (consolidated_file_saved_iff (init "cybersec_data") full_disk_world)
    as [Hsaved Hpartial].
  assert (Hin : In (consolidated_file (init "cybersec_data"))
                  (written (snd (generate_consolidated_mapping (init "cybersec_data")
                                   full_disk_world)))).
  { vm_compute. do 5 right. left. reflexivity. }
  split; [|split; [exact Hin|]].
  - intros Hs. apply (proj1 Hsaved) in Hs. destruct Hs as [doc Hdoc].
    vm_compute in Hdoc. discriminate Hdoc.
  - refine (proj2 (Hpartial (OSError "No space left on device") _ Hin)).
    vm_compute. reflexivity.
Defined.

(** ** Normaliser: which records are read, and how *)

Lemma mapM_app {A B} (f : A -> result B) (xs ys : list A) :
  mapM f (xs ++ ys) = (a <- mapM f xs ;; b <- mapM f ys ;; Ok (a ++ b)).
Proof.
  induction xs as [|x xs IH]; simpl.
  - now destruct (mapM f ys).
  - destruct (f x) as [y|e]; simpl; [|reflexivity]. rewrite IH.
    destruct (mapM f xs) as [a|e]; simpl; [|reflexivity].
    now destruct (mapM f ys).
Qed.

Lemma collect_app {A B} (f : A -> result (list B)) (xs ys : list A) :
  collect f (xs ++ ys) = (a <- collect f xs ;; b <- collect f ys ;; Ok (a ++ b)).
Proof.
  induction xs as [|x xs IH]; simpl.
  - now destruct (collect f ys).
  - destruct (f x) as [y|e]; simpl; [|reflexivity]. rewrite IH.
    destruct (collect f xs) as [a|e]; simpl; [|reflexivity].
    destruct (collect f ys) as [b|e]; simpl; [|reflexivity].
    now rewrite app_assoc.
Qed.

Lemma collect_typed {A} (ty : string) (f : value -> result A) (objs : list value) :
  Forall (fun obj => is_dict obj = true) objs ->
  collect (fun obj =>
             kind <- Py.get obj "type" VNone ;;
             if Py.eq_str kind ty then r <- f obj ;; Ok [r] else Ok []) objs
  = mapM f (List.filter (type_is ty) objs).
Proof.
  induction 1 as [|obj objs Hobj _ IH]; simpl; [reflexivity|].
  destruct obj as [| | | | |d]; try discriminate. simpl.
  destruct (Py.assoc "type" d) as [kind|]; simpl.
  - destruct (Py.eq_str kind ty); simpl.
    + destruct (f (VDict d)) as [r|e]; simpl; [|reflexivity]. rewrite IH.
      now destruct (mapM f _).
    + rewrite IH. now destruct (mapM f _).
  - rewrite IH. now destruct (mapM f _).
Qed.

(** X7. A document that is a dict with a list of dict records under
    [objects] yields exactly one normalised record per record whose type is
    the requested one, in the order of the document; records of any other
    type, or without a type, are passed over; a document without [objects]
    yields nothing. This holds for techniques, mitigations and patterns. *)
Theorem records_of_type_filter {A} (ty : string) (f : value -> result A)
    (d : list (string * value)) :
  (forall objs,
      Py.assoc "objects" d = Some (VList objs) ->
      Forall (fun obj => is_dict obj = true) objs ->
      records_of_type ty f (VDict d) = mapM f (List.filter (type_is ty) objs)) /\
  (Py.assoc "objects" d = None -> records_of_type ty f (VDict d) = Ok []).
Proof.
  split.
  - intros objs Hobjs Hdicts. unfold records_of_type. simpl. rewrite Hobjs. simpl.
    now apply collect_typed.
  - intros Hnone. unfold records_of_type. simpl. now rewrite Hnone.
Qed.

Lemma records_of_type_filter_witness :
  parse_capec_patterns (large_bundle 3) =
    mapM pattern_of (List.filter (type_is "attack-pattern")
                       (map numbered_record (seq 0 3) ++ [hardening_record])) /\
  parse_capec_patterns (VDict [("spec_version", VStr "2.1")]) = Ok [].
Proof.
  destruct (records_of_type_filter "attack-pattern" pattern_of
              [("objects", VList (map numbered_record (seq 0 3) ++ [hardening_record]))])
    as [Hsome _].
  destruct (records_of_type_filter "attack-pattern" pattern_of [("spec_version", VStr "2.1")])
    as [_ Hnone].
  split.
  - apply Hsome; [reflexivity|]. repeat constructor.
  - apply Hnone. reflexivity.
Defined.

(** X8. The technique and mitigation normalisers go through the documents
    in the order given and concatenate what each yields: normalising two
    groups of documents together gives the results of the first group
    followed by those of the second, and fails when either group fails. *)
Theorem parse_attack_documents_app (docs1 docs2 : list (string * value)) :
  parse_attack_techniques (docs1 ++ docs2) =
    (a <- parse_attack_techniques docs1 ;; b <- parse_attack_techniques docs2 ;; Ok (a ++ b)) /\
  parse_attack_mitigations (docs1 ++ docs2) =
    (a <- parse_attack_mitigations docs1 ;; b <- parse_attack_mitigations docs2 ;; Ok (a ++ b)).
Proof.
  split; [unfold parse_attack_techniques|unfold parse_attack_mitigations]; apply collect_app.
Qed.

Lemma first_external_id_ok (d : list (string * value)) :
  (exists id, first_external_id (VDict d) = Ok id) <-> refs_indexable d = true.
Proof.
  unfold first_external_id, refs_indexable. simpl.
  destruct (Py.assoc "external_references" d) as [refs|]; simpl; [|split; eauto].
  destruct refs as [| | |s|l|r]; simpl;
    try (split; [intros [id H]; discriminate H|discriminate]).
  - destruct s; simpl; (split; [intros [id H]; discriminate H|discriminate]).
  - destruct l as [|ref l]; simpl; [split; [intros [id H]; discriminate H|discriminate]|].
    destruct ref; simpl; try (split; [intros [id H]; discriminate H|discriminate]).
    split; eauto.
Qed.

Lemma phase_name_items_ok (items : list value) :
  (exists names, mapM (fun phase => Py.getitem phase "phase_name") items = Ok names) <->
  forallb phase_named items = true.
Proof.
  induction items as [|phase items IH]; simpl; [split; eauto|].
  rewrite andb_true_iff, <- IH. clear IH.
  destruct phase as [| | | | |p]; simpl;
    try (split; [intros [names H]; discriminate H|intros [H _]; discriminate H]).
  destruct (Py.assoc "phase_name" p) as [name|]; simpl;
    [|split; [intros [names H]; discriminate H|intros [H _]; discriminate H]].
  destruct (mapM _ items) as [names|e]; simpl.
  - split; eauto.
  - split; [intros [names H]; discriminate H|intros [_ [names H]]; discriminate H].
Qed.

Lemma phase_names_ok (d : list (string * value)) :
  (exists names, phase_names (VDict d) = Ok names) <-> phases_named d = true.
Proof.
  unfold phase_names, phases_named. simpl.
  destruct (Py.assoc "kill_chain_phases" d) as [phases|]; simpl; [|split; eauto].
  destruct (Py.iter phases) as [items|e]; simpl; [apply phase_name_items_ok|].
  split; [intros [names H]; discriminate H|discriminate].
Qed.

(** X9. Which records the ATT&CK normalisers accept. A technique record (a
    dict) is normalised exactly when its reference list is absent or starts
    with a dict, and its kill-chain phases are absent or all dicts with a
    [phase_name]; a mitigation record exactly when the first condition
    holds. Every other field may be missing. Any other record raises. *)
Theorem attack_record_accepted (domain : string) (d : list (string * value)) :
  ((exists t, technique_of domain (VDict d) = Ok t) <->
   refs_indexable d = true /\ phases_named d = true) /\
  ((exists m, mitigation_of domain (VDict d) = Ok m) <-> refs_indexable d = true).
Proof.
  rewrite <- first_external_id_ok, <- phase_names_ok.
  unfold technique_of, mitigation_of. split.
  - destruct (first_external_id (VDict d)) as [id|e]; simpl;
      [|split; [intros [t H]; discriminate H|intros [[id H] _]; discriminate H]].
    destruct (phase_names (VDict d)) as [names|e]; simpl.
    + split; eauto.
    + split; [intros [t H]; discriminate H|intros [_ [names H]]; discriminate H].
  - destruct (first_external_id (VDict d)) as [id|e]; simpl; [split; eauto|].
    split; [intros [t H]; discriminate H|intros [id H]; discriminate H].
Qed.

Lemma attack_record_accepted_witness :
  (exists t, technique_of "attack_enterprise" phishing_record = Ok t) /\
  ~ (exists t, technique_of "attack_enterprise" phaseless_record = Ok t).
Proof.
  split.
  - pose proof (attack_record_accepted "attack_enterprise"
                  (match phishing_record with VDict d => d | _ => [] end)) as [[_ H] _].
    apply H. split; reflexivity.
  - pose proof (attack_record_accepted "attack_enterprise"
                  (match phaseless_record with VDict d => d | _ => [] end)) as [[H _] _].
    intros Hok. destruct (H Hok) as [_ Hphases]. discriminate Hphases.
Defined.

Lemma find_capec_id_first (refs : list value) :
  Forall (fun ref => is_dict ref = true) refs ->
  find_capec_id refs = Ok (first_capec_id refs).
Proof.
  unfold first_capec_id.
  induction 1 as [|ref refs Href _ IH]; simpl; [reflexivity|].
  destruct ref as [| | | | |r]; try discriminate. simpl.
  destruct (Py.assoc "source_name" r) as [source_name|]; simpl; [|exact IH].
  destruct (Py.eq_str source_name "capec"); [reflexivity|exact IH].
Qed.

(** X10. The identifier of a pattern. A pattern record whose reference
    list is absent, empty, or a list of dicts always normalises, and its
    identifier is the [external_id] of the first reference whose
    [source_name] is "capec" (the empty string when that reference has no
    [external_id], or when there is no such reference); references before
    it and after it are ignored. *)
Theorem pattern_identifier (d : list (string * value)) :
  (forall refs,
      Py.assoc "external_references" d = Some (VList refs) ->
      Forall (fun ref => is_dict ref = true) refs ->
      exists p, pattern_of (VDict d) = Ok p /\ Pattern.id p = first_capec_id refs) /\
  (Py.assoc "external_references" d = None ->
   exists p, pattern_of (VDict d) = Ok p /\ Pattern.id p = VStr EmptyString).
Proof.
  split.
  - intros refs Hrefs Hdicts. unfold pattern_of. simpl. rewrite Hrefs. simpl.
    rewrite (find_capec_id_first refs Hdicts). simpl. eauto.
  - intros Hnone. unfold pattern_of. simpl. rewrite Hnone. simpl. eauto.
Qed.

Lemma pattern_identifier_witness :
  exists p, pattern_of (VDict cross_referenced) = Ok p /\ Pattern.id p = VStr "CAPEC-148".
Proof.
  destruct (pattern_identifier cross_referenced) as [Hrefs _].
  edestruct Hrefs as [p [Hp Hid]]; [reflexivity|repeat constructor|].
  exists p. split; [exact Hp|exact Hid].
Defined.
(** ** Correlation: the index and the summaries *)

Lemma index_patterns_lookup (k : string) (patterns : list Pattern.t) :
  forall m idx,
    index_patterns m patterns = Ok idx ->
    idx !! k =
      if String.eqb k EmptyString then m !! k
      else match last (patterns_with_id k patterns) with
           | Some p => Some p
           | None => m !! k
           end.
Proof.
  unfold patterns_with_id.
  induction patterns as [|p ps IH]; intros m idx Hrun; simpl in Hrun.
  - injection Hrun as <-. simpl. now destruct (String.eqb k EmptyString).
  - destruct (index_pattern m p) as [m'|] eqn:Hstep; [simpl in Hrun|discriminate].
    rewrite (IH _ _ Hrun). clear IH Hrun. simpl.
    unfold index_pattern in Hstep.
    destruct (Pattern.id p) as [|b|z|s|l|d] eqn:Hid; simpl in *.
    + injection Hstep as <-. reflexivity.
    + destruct b; injection Hstep as <-; reflexivity.
    + destruct (negb (z =? 0)); injection Hstep as <-; reflexivity.
    + destruct (String.eqb_spec s EmptyString) as [->|Hs]; simpl in Hstep.
      * injection Hstep as <-.
        destruct (String.eqb_spec k EmptyString) as [->|Hk]; [reflexivity|].
        destruct (String.eqb_spec EmptyString k) as [<-|_]; [contradiction|reflexivity].
      * injection Hstep as <-.
        destruct (String.eqb_spec k EmptyString) as [->|Hk].
        -- rewrite lookup_insert_ne by exact Hs. reflexivity.
        -- destruct (String.eqb_spec s k) as [->|Hsk].
           ++ rewrite last_cons, lookup_insert_eq. now destruct (last _).
           ++ rewrite lookup_insert_ne by exact Hsk. reflexivity.
    + destruct l; [injection Hstep as <-; reflexivity|discriminate].
    + destruct d; [injection Hstep as <-; reflexivity|discriminate].
Qed.

(** X11. The pattern index. Whenever it can be built, the index maps an
    identifier to the last pattern of the list that carries it (a later
    duplicate replaces an earlier one), and never holds the empty
    identifier. *)
Theorem index_last_wins (patterns : list Pattern.t) (idx : gmap string Pattern.t) :
  index_patterns ∅ patterns = Ok idx ->
  idx !! EmptyString = None /\
  forall k, k <> EmptyString -> idx !! k = last (patterns_with_id k patterns).
Proof.
  intros Hrun. split.
  - rewrite (index_patterns_lookup EmptyString _ _ _ Hrun). simpl. apply lookup_empty.
  - intros k Hk. rewrite (index_patterns_lookup k _ _ _ Hrun).
    destruct (String.eqb_spec k EmptyString) as [->|_]; [contradiction|].
    rewrite lookup_empty. now destruct (last _).
Qed.

Lemma index_last_wins_witness :
  exists idx,
    index_patterns ∅ [superseded; anonymous; content_spoofing] = Ok idx /\
    idx !! EmptyString = None /\
    idx !! "CAPEC-148" = Some content_spoofing.
Proof.
  eexists. split; [reflexivity|].
  destruct (index_last_wins [superseded; anonymous; content_spoofing] _ eq_refl) as [Hnone Hlast].
  split; [exact Hnone|]. apply Hlast. discriminate.
Defined.

Lemma length_append (a b : string) :
  String.length (a +:+ b) = (String.length a + String.length b)%nat.
Proof. induction a as [|c a IH]; simpl; [reflexivity|now rewrite IH]. Qed.

Lemma substring_from_start (m : nat) :
  forall s, exists rest,
    s = substring 0 m s +:+ rest /\
    String.length (substring 0 m s) = Nat.min m (String.length s).
Proof.
  induction m as [|m IH]; intros s.
  - exists s. destruct s; simpl; auto.
  - destruct s as [|c s]; [exists EmptyString; auto|].
    destruct (IH s) as [rest [Hs Hlen]]. exists rest.
    split; [change (String c s = String c (substring 0 m s +:+ rest)); now f_equal|].
    change (S (String.length (substring 0 m s)) = S (Nat.min m (String.length s))).
    now f_equal.
Qed.

(** X12. The summary of a pattern with a textual description copies the
    identifier and the name; a description of at most 200 characters is
    copied as it is, a longer one is cut to its first 200 characters
    followed by "...", so a summary description never exceeds 203
    characters (and a description of 201 or 202 characters gets longer). *)
Theorem pattern_summary_truncates (p : Pattern.t) (text : string) :
  Pattern.description p = VStr text ->
  exists kept rest shown,
    text = kept +:+ rest /\
    String.length kept = Nat.min 200 (String.length text) /\
    shown = (if (200 <? String.length text)%nat then kept +:+ "..." else text) /\
    (String.length shown <= 203)%nat /\
    pattern_summary p =
      Ok {| PatternSummary.id := Pattern.id p;
            PatternSummary.name := Pattern.name p;
            PatternSummary.description := VStr shown |}.
Proof.
  intros Hd. destruct (substring_from_start 200 text) as [rest [Htext Hlen]].
  exists (substring 0 200 text), rest. eexists. split; [exact Htext|].
  split; [exact Hlen|]. split; [reflexivity|]. split.
  - destruct (Nat.ltb_spec 200 (String.length text)) as [Hlong|Hshort].
    + rewrite length_append, Hlen. change (String.length "...") with 3%nat. lia.
    + lia.
  - unfold pattern_summary. rewrite Hd. simpl.
    now destruct (200 <? String.length text)%nat.
Qed.

Lemma pattern_summary_truncates_witness :
  exists shown,
    pattern_summary verbose_pattern =
      Ok {| PatternSummary.id := VStr "CAPEC-1";
            PatternSummary.name := VStr "Verbose";
            PatternSummary.description := VStr shown |} /\
    String.length verbose_text = 250%nat /\
    String.length shown = 203%nat.
Proof.
  destruct (pattern_summary_truncates verbose_pattern verbose_text eq_refl)
    as [kept [rest [shown [_ [Hkept [Hshown [_ Hsummary]]]]]]].
  exists shown. split; [exact Hsummary|]. split; [reflexivity|].
  rewrite Hshown. change (200 <? String.length verbose_text)%nat with true. cbv iota.
  rewrite length_append, Hkept. reflexivity.
Defined.

Lemma mapM_Forall2 {A B} (f : A -> result B) (xs : list A) (ys : list B) :
  mapM f xs = Ok ys -> Forall2 (fun x y => f x = Ok y) xs ys.
Proof.
  revert ys. induction xs as [|x xs IH]; intros ys Hrun; simpl in Hrun.
  - injection Hrun as <-. constructor.
  - destruct (f x) as [y|] eqn:Hx; [simpl in Hrun|discriminate].
    destruct (mapM f xs) as [ys'|]; [simpl in Hrun|discriminate].
    injection Hrun as <-. constructor; [exact Hx|now apply IH].
Qed.

(** X13. The shape of a mapping. Whenever the engine returns, the mapping
    has exactly the categories of the updater's table, in the table's
    order; each entry carries the description of its category, the fixed
    mapping source, and a pattern count equal to the length of its pattern
    list. *)
Theorem stride_mapping_shape (self : Updater.t) (techniques : list Technique.t)
    (patterns : list Pattern.t) (mapping : list (string * CategoryMapping.t)) :
  stride_mapping_of self techniques patterns = Ok mapping ->
  map fst mapping = map fst (Updater.stride_capec_mappings self) /\
  Forall2 (fun item entry =>
             CategoryMapping.description (snd entry) = MappingInfo.description (snd item) /\
             CategoryMapping.capec_count (snd entry)
               = length (CategoryMapping.capec_patterns (snd entry)) /\
             CategoryMapping.mapping_source (snd entry)
               = "Official community mapping (ostering.com)")
          (Updater.stride_capec_mappings self) mapping.
Proof.
  unfold stride_mapping_of. intros Hrun.
  destruct (index_patterns ∅ patterns) as [idx|]; [simpl in Hrun|discriminate].
  apply mapM_Forall2 in Hrun.
  assert (Hall : Forall2 (fun item entry =>
                   fst entry = fst item /\
                   (CategoryMapping.description (snd entry) = MappingInfo.description (snd item) /\
                    CategoryMapping.capec_count (snd entry)
                      = length (CategoryMapping.capec_patterns (snd entry)) /\
                    CategoryMapping.mapping_source (snd entry)
                      = "Official community mapping (ostering.com)"))
                 (Updater.stride_capec_mappings self) mapping).
  { eapply Forall2_impl; [exact Hrun|]. intros item entry Hentry. simpl in Hentry.
    destruct (map_category idx techniques item.1 item.2) as [m|] eqn:Hm;
      [simpl in Hentry|discriminate].
    injection Hentry as <-. simpl. split; [reflexivity|].
    unfold map_category in Hm.
    destruct (map_capec_patterns idx _ [] ∅) as [mapped|]; [simpl in Hm|discriminate].
    destruct (map_attack_techniques _ techniques []) as [attack|]; [simpl in Hm|discriminate].
    injection Hm as <-. simpl. auto. }
  split; [exact (Forall2_same_keys _ _ _ Hall)|].
  eapply Forall2_impl; [exact Hall|]. intros item entry [_ H]. exact H.
Qed.

Lemma stride_mapping_shape_witness :
  exists mapping,
    stride_mapping_of (init "cybersec_data") [rogue_ap] [content_spoofing] = Ok mapping /\
    map fst mapping =
      ["Spoofing"; "Tampering"; "Repudiation"; "Information Disclosure";
       "Denial of Service"; "Elevation of Privilege"].
Proof.
  destruct (stride_mapping_of (init "cybersec_data") [rogue_ap] [content_spoofing])
    as [mapping|e] eqn:Hrun; [|vm_compute in Hrun; discriminate Hrun].
  exists mapping. split; [reflexivity|].
  exact (proj1 (stride_mapping_shape _ _ _ _ Hrun)).
Defined.

(** ** Correlation: what the keyword test sees *)

Lemma lower_app (a b : string) : Py.lower (a +:+ b) = Py.lower a +:+ Py.lower b.
Proof. induction a as [|c a IH]; simpl; [reflexivity|now rewrite IH]. Qed.

Lemma append_assoc (a b c : string) : (a +:+ b) +:+ c = a +:+ (b +:+ c).
Proof.
  induction a as [|x a IH]; [reflexivity|].
  change (String x ((a +:+ b) +:+ c) = String x (a +:+ (b +:+ c))). now f_equal.
Qed.

Lemma prefix_before_space (keyword : string) :
  has_space keyword = false ->
  forall a b, String.prefix keyword (a +:+ String " " b) = String.prefix keyword a.
Proof.
  induction keyword as [|k keyword IH]; intros Hk a b.
  - now destruct a.
  - simpl in Hk. apply orb_false_iff in Hk as [Hk Hrest].
    destruct a as [|c a]; simpl.
    + destruct (ascii_dec k " ") as [->|_]; [discriminate Hk|reflexivity].
    + destruct (ascii_dec k c); [now apply IH|reflexivity].
Qed.

Lemma str_contains_around_space (keyword : string) :
  has_space keyword = false ->
  forall a b,
    Py.str_contains keyword (a +:+ String " " b) =
      Py.str_contains keyword a || Py.str_contains keyword b.
Proof.
  intros Hk. induction a as [|c a IH]; intros b.
  - change (EmptyString +:+ String " " b) with (String " " b).
    rewrite str_contains_cons, str_contains_nil.
    rewrite <- (prefix_before_space keyword Hk EmptyString b). simpl.
    now rewrite orb_false_r.
  - change (String c a +:+ String " " b) with (String c (a +:+ String " " b)).
    rewrite !str_contains_cons, IH.
    change (String c (a +:+ String " " b)) with (String c a +:+ String " " b).
    rewrite (prefix_before_space keyword Hk). now rewrite orb_assoc.
Qed.

Lemma keywords_without_space (category : string) :
  forallb (fun keyword => negb (has_space keyword)) (keywords_of category) = true.
Proof.
  unfold keywords_of, stride_keywords. simpl.
  repeat match goal with
         | |- context [String.eqb category ?s] => destruct (String.eqb category s)
         end; reflexivity.
Qed.

Lemma existsb_agree {A} (f g : A -> bool) (l : list A) :
  (forall x, In x l -> f x = g x) -> existsb f l = existsb g l.
Proof.
  induction l as [|x l IH]; intros H; simpl; [reflexivity|].
  rewrite (H x) by now left. rewrite IH; [reflexivity|]. intros y Hy. apply H. now right.
Qed.

Lemma desc_lower_fields (tech : Technique.t) (d n : string) :
  Technique.description tech = VStr d -> Technique.name tech = VStr n ->
  desc_lower tech = Ok (Py.lower d +:+ String " " (Py.lower n)).
Proof.
  intros Hd Hn. unfold desc_lower. rewrite Hd, Hn. simpl.
  now rewrite append_assoc, lower_app.
Qed.

(** X14. No keyword of the fixed table contains a space, and the text of a
    technique is its description, one space, and its name: so a technique
    matches a category exactly when a keyword of the category occurs in
    the lowercased description or in the lowercased name - never across
    the two. *)
Theorem keyword_in_one_field (category : string) (tech : Technique.t) (d n : string) :
  Technique.description tech = VStr d ->
  Technique.name tech = VStr n ->
  matched (keywords_of category) tech =
    existsb (fun keyword => Py.str_contains keyword (Py.lower d)
                            || Py.str_contains keyword (Py.lower n))
            (keywords_of category).
Proof.
  intros Hd Hn. unfold matched. rewrite (desc_lower_fields tech d n Hd Hn).
  unfold any_keyword. apply existsb_agree. intros keyword Hin.
  apply str_contains_around_space.
  pose proof (keywords_without_space category) as Hall.
  rewrite forallb_forall in Hall. specialize (Hall keyword Hin).
  now apply negb_true_iff in Hall.
Qed.

Lemma keyword_in_one_field_witness :
  matched (keywords_of "Spoofing") rogue_ap =
    existsb (fun keyword =>
               Py.str_contains keyword
                 (Py.lower "An attacker sets up a fake access point to impersonate a legitimate network")
               || Py.str_contains keyword (Py.lower "Rogue AP"))
            (keywords_of "Spoofing").
Proof.
  apply keyword_in_one_field; reflexivity.
Defined.

(** X15. Matching ignores the case of the technique's text: two
    techniques whose descriptions are equal up to case, and whose names are
    equal up to case, match the same keyword lists. *)
Theorem matching_ignores_case (keywords : list string) (tech1 tech2 : Technique.t)
    (d1 n1 d2 n2 : string) :
  Technique.description tech1 = VStr d1 -> Technique.name tech1 = VStr n1 ->
  Technique.description tech2 = VStr d2 -> Technique.name tech2 = VStr n2 ->
  Py.lower d1 = Py.lower d2 -> Py.lower n1 = Py.lower n2 ->
  matched keywords tech1 = matched keywords tech2.
Proof.
  intros Hd1 Hn1 Hd2 Hn2 Hd Hn. unfold matched.
  rewrite (desc_lower_fields tech1 d1 n1 Hd1 Hn1), (desc_lower_fields tech2 d2 n2 Hd2 Hn2).
  now rewrite Hd, Hn.
Qed.

Lemma matching_ignores_case_witness :
  matched (keywords_of "Spoofing") (technique "T1" "PHISHING" "Spearphishing Link") =
  matched (keywords_of "Spoofing") (technique "T1" "phishing" "SPEARPHISHING link").
Proof.
  eapply matching_ignores_case; reflexivity.
Defined.

(** ** The run: statistics and flags *)

Lemma generate_consolidated_mapping_inv (self : Updater.t) (w : World) (doc : Consolidated.t) :
  fst (generate_consolidated_mapping self w) = Ok doc ->
  exists techniques mitigations patterns mapping,
    stride_mapping_of self techniques patterns = Ok mapping /\
    doc = consolidated_of self (now w) techniques mitigations patterns
            (fst (fetch_d3fend_data self w)) mapping.
Proof.
  rewrite generate_consolidated_mapping_result. intros Hrun.
  destruct (parse_attack_techniques _) as [techniques|]; [simpl in Hrun|discriminate].
  destruct (parse_attack_mitigations _) as [mitigations|]; [simpl in Hrun|discriminate].
  destruct (parse_capec_patterns _) as [patterns|]; [simpl in Hrun|discriminate].
  destruct (stride_mapping_of self techniques patterns) as [mapping|] eqn:Hmap;
    [simpl in Hrun|discriminate].
  destruct (writable w _); [|discriminate].
  destruct (dump_error w _); [discriminate|]. injection Hrun as <-.
  exists techniques, mitigations, patterns, mapping. split; [exact Hmap|reflexivity].
Qed.

(** X16. The statistics of a returned document agree with its mapping:
    the total of pattern matches is the sum of the [capec_count] fields of
    the categories, the total of technique matches the sum of the lengths
    of their technique lists (a technique matched to several categories is
    counted once for each), the coverage table lists the categories of the
    updater's table in order, and the category count of the metadata is
    the number of entries of the mapping. *)
Theorem run_statistics (self : Updater.t) (w : World) (doc : Consolidated.t) :
  fst (generate_consolidated_mapping self w) = Ok doc ->
  FrameworkStats.total_capec_mapped (Consolidated.framework_stats doc) =
    sum_nat (map (fun c => CategoryMapping.capec_count (snd c)) (Consolidated.stride_mapping doc)) /\
  FrameworkStats.total_attack_mapped (Consolidated.framework_stats doc) =
    sum_nat (map (fun c => Coverage.attack_count (snd c))
               (FrameworkStats.coverage_by_category (Consolidated.framework_stats doc))) /\
  map fst (FrameworkStats.coverage_by_category (Consolidated.framework_stats doc)) =
    map fst (Updater.stride_capec_mappings self) /\
  DataSources.stride_categories (Metadata.data_sources (Consolidated.metadata doc)) =
    length (Consolidated.stride_mapping doc).
Proof.
  intros Hrun.
  destruct (generate_consolidated_mapping_inv self w doc Hrun)
    as [techniques [mitigations [patterns [mapping [Hmap ->]]]]].
  destruct (stride_mapping_shape _ _ _ _ Hmap) as [Hkeys Hshape]. simpl.
  split; [|split; [|split]].
  - f_equal. apply map_ext_in. intros entry Hentry.
    destruct (Forall2_In_r _ _ _ _ Hshape Hentry) as [item [_ [_ [Hcount _]]]].
    now rewrite Hcount.
  - f_equal. rewrite map_map. reflexivity.
  - rewrite map_map. exact Hkeys.
  - rewrite <- (length_map fst mapping), Hkeys. symmetry. apply length_map.
Qed.

Lemma run_statistics_witness :
  exists doc,
    fst (generate_consolidated_mapping (init "cybersec_data") busy_world) = Ok doc /\
    DataSources.attack_techniques_count (Metadata.data_sources (Consolidated.metadata doc))
      = 36%nat /\
    FrameworkStats.total_attack_mapped (Consolidated.framework_stats doc) =
      sum_nat (map (fun c => Coverage.attack_count (snd c))
                 (FrameworkStats.coverage_by_category (Consolidated.framework_stats doc))).
Proof.
  destruct (fst (generate_consolidated_mapping (init "cybersec_data") busy_world))
    as [doc|e] eqn:Hrun; [|vm_compute in Hrun; discriminate Hrun].
  exists doc. split; [reflexivity|].
  destruct (run_statistics _ _ _ Hrun) as [_ [Htotal _]]. split; [|exact Htotal].
  vm_compute in Hrun. injection Hrun as <-. reflexivity.
Defined.



(** X18. Allowing more attempts never loses a document: a download that
    returns a document with [n >= 1] attempts returns the same document,
    after the same requests and waits, with any larger number of
    attempts. *)
Theorem more_attempts_keep_document (w : World) (url : string) (n n' : Z) (doc : value) :
  1 <= n -> n <= n' ->
  fst (download_with_retry w url n) = Ok doc ->
  fst (download_with_retry w url n') = Ok doc /\
  actions (snd (download_with_retry w url n')) = actions (snd (download_with_retry w url n)).
Proof.
  intros Hn Hle Hrun.
  pose proof (download_with_retry_outcome w url n Hn) as Hout. rewrite Hrun in Hout.
  destruct Hout as [k [Hk [Hdoc Hfail]]].
  destruct (retry_loop_success w url n doc k (Z.to_nat n) 0%nat) as [tr [Hr Ha]];
    [exact Hfail|exact Hdoc|simpl; lia|lia|].
  destruct (retry_loop_success w url n' doc k (Z.to_nat n') 0%nat) as [tr' [Hr' Ha']];
    [exact Hfail|exact Hdoc|simpl; lia|lia|].
  unfold download_with_retry. rewrite Hr, Hr'. simpl. split; [reflexivity|congruence].
Qed.

Lemma more_attempts_keep_document_witness :
  fst (download_with_retry flaky_world "https://example.org/doc.json" 5) = Ok empty_bundle /\
  actions (snd (download_with_retry flaky_world "https://example.org/doc.json" 5)) =
  actions (snd (download_with_retry flaky_world "https://example.org/doc.json" 3)).
Proof.
  apply more_attempts_keep_document; [lia|lia|reflexivity].
Defined.

Lemma map_attack_techniques_no_keywords (techniques : list Technique.t) :
  forall acc out, map_attack_techniques [] techniques acc = Ok out -> out = acc.
Proof.
  induction techniques as [|tech techs IH]; intros acc out Hrun; simpl in Hrun.
  - now injection Hrun.
  - destruct (desc_lower tech); [simpl in Hrun|discriminate]. now apply IH.
Qed.

(** X19. A category of the updater's table that is not one of the six
    names of the keyword table has no keywords: whenever the engine
    returns, its technique list is empty, whatever the techniques say. *)
Theorem unknown_category_matches_nothing (self : Updater.t) (techniques : list Technique.t)
    (patterns : list Pattern.t) (mapping : list (string * CategoryMapping.t))
    (category : string) (m : CategoryMapping.t) :
  Py.assoc category stride_keywords = None ->
  stride_mapping_of self techniques patterns = Ok mapping ->
  In (category, m) mapping ->
  CategoryMapping.attack_techniques m = [].
Proof.
  intros Hnone Hrun Hin. unfold stride_mapping_of in Hrun.
  destruct (index_patterns ∅ patterns) as [idx|]; [simpl in Hrun|discriminate].
  destruct (mapM_In _ _ _ _ Hrun Hin) as [item [_ Hitem]].
  destruct (map_category idx techniques item.1 item.2) as [m'|] eqn:Hm;
    [simpl in Hitem|discriminate].
  injection Hitem as Hkey <-. unfold map_category in Hm.
  destruct (map_capec_patterns idx _ [] ∅) as [mapped|]; [simpl in Hm|discriminate].
  unfold keywords_of in Hm. rewrite Hkey, Hnone in Hm.
  destruct (map_attack_techniques [] techniques []) as [attack|] eqn:Hattack;
    [simpl in Hm|discriminate].
  injection Hm as <-. simpl. exact (map_attack_techniques_no_keywords _ _ _ Hattack).
Qed.

Lemma unknown_category_matches_nothing_witness :
  exists m,
    stride_mapping_of custom_updater [rogue_ap; log_injection] [content_spoofing]
      = Ok [("Lateral Movement", m)] /\
    CategoryMapping.capec_count m = 1%nat /\
    CategoryMapping.attack_techniques m = [].
Proof.
  eexists. split; [vm_compute; reflexivity|]. split; [reflexivity|].
  eapply (unknown_category_matches_nothing custom_updater [rogue_ap; log_injection]
            [content_spoofing] _ "Lateral Movement");
    [reflexivity|vm_compute; reflexivity|now left].
Defined.
